(** * nobrainer/validate.py: the single-volume and the batch validator

    A shallow embedding of [validate_from_filepath] and
    [validate_from_filepaths].  The numeric array library, the image I/O
    library, the label remapper, the metric and the predictor are
    collaborators: they are variables of the section [Validate].  What
    the file itself does -- the existence check, the Dice loop, the
    derivation of the output names, the overwrite guard, the selection
    of the volumes to save and the summary after the loop -- is written
    out, with the file store and the trace of writes as explicit state. *)

From Stdlib Require Import ZArith QArith Ascii String.
From stdpp Require Import base strings list gmap pretty.

Local Open Scope string_scope.
Local Open Scope list_scope.

(** ** Exceptions *)

(** The exceptions the two functions can end with.  [PyException] is the
    plain [Exception] of line 143; [Propagated] stands for whatever a
    collaborator raises. *)
Inductive exn : Type :=
| TypeError
| IndexError
| ValueError
| AttributeError
| FileNotFoundError (msg : string)
| PyException (msg : string)
| UnboundLocalError (var : string)
| Propagated (what : string).

Definition result (A : Type) : Type := (exn + A)%type.

Definition rbind {A B} (r : result A) (k : A -> result B) : result B :=
  match r with
  | inl e => inl e
  | inr a => k a
  end.

(** ** Strings as Python uses them here *)

Module PyStr.

Definition dot : ascii := "."%char.
Definition slash : ascii := "/"%char.

(** [s.split(c)]: never empty, keeps empty fields. *)
Fixpoint split (c : ascii) (s : string) : list string :=
  match s with
  | EmptyString => [EmptyString]
  | String a s' =>
      if Ascii.eqb a c then EmptyString :: split c s'
      else match split c s' with
           | [] => [String a EmptyString]
           | w :: ws => String a w :: ws
           end
  end.

(** [sep.join(l)] *)
Fixpoint join (sep : string) (l : list string) : string :=
  match l with
  | [] => EmptyString
  | [x] => x
  | x :: rest => x +:+ sep +:+ join sep rest
  end.

(** [s.lstrip(c)] *)
Fixpoint lstrip (c : ascii) (s : string) : string :=
  match s with
  | String a s' => if Ascii.eqb a c then lstrip c s' else s
  | EmptyString => EmptyString
  end.

(** [s.endswith(c)] *)
Fixpoint endswith (c : ascii) (s : string) : bool :=
  match s with
  | EmptyString => false
  | String a EmptyString => Ascii.eqb a c
  | String _ s' => endswith c s'
  end.

(** [s.rfind(c)], [None] for Python's -1. *)
Fixpoint rfind (c : ascii) (s : string) : option nat :=
  match s with
  | EmptyString => None
  | String a s' =>
      match rfind c s' with
      | Some i => Some (S i)
      | None => if Ascii.eqb a c then Some 0 else None
      end
  end.

(** [c in s] *)
Fixpoint contains (c : ascii) (s : string) : bool :=
  match s with
  | EmptyString => false
  | String a s' => Ascii.eqb a c || contains c s'
  end.

(** [s.count(c)] *)
Fixpoint count (c : ascii) (s : string) : nat :=
  match s with
  | EmptyString => 0
  | String a s' => (if Ascii.eqb a c then 1 else 0) + count c s'
  end.

(** [len(s) - len(s.lstrip(c))] *)
Fixpoint lead (c : ascii) (s : string) : nat :=
  match s with
  | String a s' => if Ascii.eqb a c then S (lead c s') else 0
  | EmptyString => 0
  end.

(** [s[:i]] *)
Definition prefix (i : nat) (s : string) : string := String.substring 0 i s.

(** [s[0]] and [s[1]] of a string: a string of one character. *)
Definition getitem (s : string) (i : nat) : result string :=
  match String.get i s with
  | Some a => inr (String a EmptyString)
  | None => inl IndexError
  end.

End PyStr.

(** ** pathlib: pure POSIX paths *)

Module Pathlib.

(** A parsed path: the root ([""], ["/"] or ["//"]) and the names
    below it, as [PurePosixPath] keeps them.  [stem] and [suffixes]
    are those of CPython 3.4 to 3.12. *)
Record PurePath : Type := mkPath { root : string; names : list string }.

(** [splitroot]: exactly two leading slashes are kept, any other
    number collapses to one. *)
Definition splitroot (s : string) : string * string :=
  match s with
  | String a _ =>
      if Ascii.eqb a PyStr.slash then
        let rel := PyStr.lstrip PyStr.slash s in
        if Nat.eqb (String.length s - String.length rel) 2
        then ("//", rel) else ("/", rel)
      else ("", s)
  | EmptyString => ("", s)
  end.

Definition keep_name (x : string) : bool :=
  negb (String.eqb x "") && negb (String.eqb x ".").

(** [PurePosixPath(s)] *)
Definition parse (s : string) : PurePath :=
  let '(r, rel) := splitroot s in
  mkPath r (List.filter keep_name (PyStr.split PyStr.slash rel)).

(** [str(p)] *)
Definition str (p : PurePath) : string :=
  match names p with
  | [] => if String.eqb (root p) "" then "." else root p
  | _ => root p +:+ PyStr.join "/" (names p)
  end.

(** [p.name] *)
Definition name (p : PurePath) : string := List.last (names p) "".

(** [p.parent] *)
Definition parent (p : PurePath) : PurePath :=
  mkPath (root p) (List.removelast (names p)).

(** [p / s] *)
Definition joinpath (p : PurePath) (s : string) : PurePath :=
  let q := parse s in
  if String.eqb (root q) "" then mkPath (root p) (names p ++ names q)
  else q.

(** [p.stem]: the name without its last suffix. *)
Definition stem (p : PurePath) : string :=
  let n := name p in
  match PyStr.rfind PyStr.dot n with
  | Some i =>
      if (0 <? i)%nat && (i <? String.length n - 1)%nat
      then PyStr.prefix i n else n
  | None => n
  end.

(** [p.suffixes] *)
Definition suffixes (p : PurePath) : list string :=
  let n := name p in
  if PyStr.endswith PyStr.dot n then []
  else List.map (fun x => "." +:+ x)
                (List.tl (PyStr.split PyStr.dot (PyStr.lstrip PyStr.dot n))).

(** [os.path.basename(s)] *)
Definition basename (s : string) : string :=
  List.last (PyStr.split PyStr.slash s) "".

End Pathlib.

(** ** Output names (lines 136-141) *)

Record OutPaths : Type := mkOutPaths {
  meanPath : Pathlib.PurePath;
  variancePath : Pathlib.PurePath;
  entropyPath : Pathlib.PurePath;
  dicePath : Pathlib.PurePath
}.

Definition derive_paths (volume : string) : OutPaths :=
  let outpath := Pathlib.parse volume in
  let suffixes := PyStr.join "." (Pathlib.suffixes outpath) in
  let child tag :=
    Pathlib.joinpath (Pathlib.parent outpath) (Pathlib.stem outpath +:+ tag) in
  {| meanPath := child ("_mean." +:+ suffixes);
     variancePath := child ("_variance." +:+ suffixes);
     entropyPath := child ("_entropy." +:+ suffixes);
     dicePath := child "_dice.npy" |}.

Definition paths_str (o : OutPaths) : list string :=
  [Pathlib.str (meanPath o); Pathlib.str (variancePath o);
   Pathlib.str (entropyPath o); Pathlib.str (dicePath o)].

(** ** Values the collaborators exchange *)

(** An entry of the Dice vector: a 64-bit float, kept as the rational it
    denotes, or one of the values that denote none. *)
Inductive npfloat : Type :=
| Finite (q : Q)
| Inf (negative : bool)
| NaN.

Definition in_unit (x : npfloat) : Prop :=
  match x with
  | Finite q => (0 <= q)%Q /\ (q <= 1)%Q
  | _ => False
  end.

(** What the caller passes as [filepath].  The docstring asks for a
    tuple (volume, ground truth); the body applies both [Path(...)] and
    [...[0]] to it, which a tuple does not support and a [str] or an
    indexable object with [__fspath__] does. *)
Inductive pyarg : Type :=
| Str (s : string)
| Tuple (items : list string)
| PathLikeSeq (fspath : string) (items : list string).

(** [Path(filepath)]: pathlib rejects what is neither [str] nor
    [os.PathLike]. *)
Definition as_path (a : pyarg) : result Pathlib.PurePath :=
  match a with
  | Str s => inr (Pathlib.parse s)
  | Tuple _ => inl TypeError
  | PathLikeSeq s _ => inr (Pathlib.parse s)
  end.

(** [filepath[i]] *)
Definition getitem (a : pyarg) (i : nat) : result string :=
  match a with
  | Str s => PyStr.getitem s i
  | Tuple items | PathLikeSeq _ items =>
      match items !! i with
      | Some x => inr x
      | None => inl IndexError
      end
  end.

(** [tuple[i]] on the tuple the predictor returns. *)
Definition tuple_get {A} (t : list A) (i : nat) : result A :=
  match t !! i with
  | Some x => inr x
  | None => inl IndexError
  end.

Section Validate.

(** Images and arrays (what [nib.load], [_predict] and [replace]
    return), boolean masks, label mappings, predictor handles and
    normalizers are opaque. *)
Variables (Volume Mask Mapping Predictor Normalizer : Type).

(** *** The file store and the trace *)

Inductive FileData : Type :=
| ImgFile (v : Volume)
| NpyFile (d : list npfloat).

Inductive Event : Type :=
| NibSave (path : string) (v : Volume)
| NpSave (path : string) (d : list npfloat)
| Print (line : string).

(** Regular files by the string pathlib gives their path, and what
    the run has written and printed so far, oldest first. *)
Record World : Type := mkWorld {
  files : gmap string FileData;
  trace : list Event
}.

(** A computation that may raise and may write: what it has written
    before it raised stays written. *)
Definition M (A : Type) : Type := World -> result A * World.

Definition ret {A} (a : A) : M A := fun w => (inr a, w).
Definition raise {A} (e : exn) : M A := fun w => (inl e, w).
Definition bind {A B} (m : M A) (k : A -> M B) : M B :=
  fun w => match m w with
           | (inl e, w') => (inl e, w')
           | (inr a, w') => k a w'
           end.
Definition lift {A} (r : result A) : M A := fun w => (r, w).
Definition reading {A} (f : gmap string FileData -> result A) : M A :=
  fun w => (f (files w), w).

(** *** Parameters of both functions *)

Record Args : Type := mkArgs {
  predictor : Predictor;
  block_shape : Z * Z * Z;
  n_classes : Z;
  mapping_y : string;
  returnVariance : bool;
  returnEntropy : bool;
  returnArrayFromImages : bool;
  n_samples : Z;
  normalizer : Normalizer;
  batch_size : Z;
  dtype : string
}.

(** *** Collaborators *)

(** [nib.load] and [read_mapping] read the file store. *)
Variable nib_load : gmap string FileData -> string -> result Volume.
Variable read_mapping : gmap string FileData -> string -> result Mapping.
(** [nobrainer.predict.predict], with the keyword arguments in the
    order of the call. *)
Variable _predict :
  Volume -> Predictor -> Z * Z * Z -> bool -> bool -> bool -> Z ->
  Normalizer -> Z -> result (list Volume).
Variable replace : Volume -> Mapping -> result Volume.
Variable np_equal : Volume -> nat -> Mask.
Variable dice_numpy : Mask -> Mask -> result npfloat.
Variable np_mean : list npfloat -> npfloat.
Variable float_str : npfloat -> string.
(** [nib.save] and [np.save] may refuse an object or a path. *)
Variable nib_save_refuses : Volume -> string -> option exn.
Variable np_save_refuses : string -> option exn.

(** *** Primitive actions *)

Definition is_file (fs : gmap string FileData) (p : Pathlib.PurePath) : bool :=
  bool_decide (is_Some (fs !! Pathlib.str p)).

Definition nib_save (v : Volume) (p : Pathlib.PurePath) : M unit :=
  fun w =>
    let path := Pathlib.str p in
    match nib_save_refuses v path with
    | Some e => (inl e, w)
    | None =>
        (inr tt, mkWorld (<[path := ImgFile v]> (files w))
                         (trace w ++ [NibSave path v]))
    end.

Definition np_save (p : Pathlib.PurePath) (d : list npfloat) : M unit :=
  fun w =>
    let path := Pathlib.str p in
    match np_save_refuses path with
    | Some e => (inl e, w)
    | None =>
        (inr tt, mkWorld (<[path := NpyFile d]> (files w))
                         (trace w ++ [NpSave path d]))
    end.

Definition print (line : string) : M unit :=
  fun w => (inr tt, mkWorld (files w) (trace w ++ [Print line])).

(** [np.zeros(n)] *)
Definition np_zeros (n : Z) : result (list npfloat) :=
  if (n <? 0)%Z then inl ValueError
  else inr (replicate (Z.to_nat n) (Finite 0)).

(** *** validate_from_filepath *)

(** Lines 76-79: [for i in range(n_classes): dice[i] = ...]. *)
Fixpoint dice_loop (prediction_image y : Volume) (classes : list nat)
         (dice : list npfloat) : result (list npfloat) :=
  match classes with
  | [] => inr dice
  | i :: rest =>
      let u := np_equal prediction_image i in
      let v := np_equal y i in
      rbind (dice_numpy u v) (fun d =>
      dice_loop prediction_image y rest (<[i := d]> dice))
  end.

Definition validate_from_filepath (fs : gmap string FileData)
           (filepath : pyarg) (a : Args)
  : result (list Volume * list npfloat) :=
  rbind (as_path filepath) (fun p =>
  if negb (is_file fs p) then
    rbind (getitem filepath 0) (fun f0 =>
    inl (FileNotFoundError ("could not find file " +:+ f0)))
  else
    rbind (getitem filepath 0) (fun f0 =>
    rbind (nib_load fs f0) (fun img =>
    rbind (getitem filepath 1) (fun f1 =>
    rbind (nib_load fs f1) (fun y =>
    rbind (_predict img (predictor a) (block_shape a) (returnVariance a)
                    (returnEntropy a) (returnArrayFromImages a)
                    (n_samples a) (normalizer a) (batch_size a))
          (fun outputs =>
    rbind (tuple_get outputs 0) (fun prediction_image =>
    rbind (read_mapping fs (mapping_y a)) (fun mapping =>
    rbind (replace y mapping) (fun y =>
    rbind (np_zeros (n_classes a)) (fun dice =>
    rbind (dice_loop prediction_image y
                     (seq 0 (Z.to_nat (n_classes a))) dice) (fun dice =>
    inr (outputs, dice)))))))))))).

(** *** validate_from_filepaths *)

(** The names the loop body binds and the code after the loop reads. *)
Record Locals : Type := mkLocals {
  loc_filepath : pyarg;
  loc_dice : list npfloat;
  loc_dicePath : Pathlib.PurePath
}.

Definition already_exists_msg (o : OutPaths) : string :=
  Pathlib.str (meanPath o) +:+ " or " +:+ Pathlib.str (variancePath o)
  +:+ " or " +:+ Pathlib.str (entropyPath o) +:+ " already exists.".

(** Line 147. *)
Definition includeVariance (a : Args) : bool :=
  (1 <? n_samples a)%Z && returnVariance a.

(** Lines 145-155. *)
Definition save_outputs (a : Args) (outputs : list Volume) (o : OutPaths)
  : M unit :=
  bind (lift (tuple_get outputs 0)) (fun o0 =>
  bind (nib_save o0 (meanPath o)) (fun _ =>
  if negb (returnArrayFromImages a) then
    if includeVariance a && returnEntropy a then
      bind (lift (tuple_get outputs 1)) (fun o1 =>
      bind (nib_save o1 (variancePath o)) (fun _ =>
      bind (lift (tuple_get outputs 2)) (fun o2 =>
      nib_save o2 (entropyPath o))))
    else if includeVariance a then
      bind (lift (tuple_get outputs 1)) (fun o1 =>
      nib_save o1 (variancePath o))
    else
      bind (lift (tuple_get outputs 1)) (fun o1 =>
      nib_save o1 (entropyPath o))
  else ret tt)).

(** Lines 121-155: one pass of the loop body. *)
Definition iteration (a : Args) (filepath : pyarg) : M Locals :=
  bind (reading (fun fs => validate_from_filepath fs filepath a))
       (fun '(outputs, dice) =>
  bind (lift (getitem filepath 0)) (fun f0 =>
  let o := derive_paths f0 in
  bind (reading (fun fs =>
          inr (is_file fs (meanPath o) || is_file fs (variancePath o)
               || is_file fs (entropyPath o)))) (fun (taken : bool) =>
  if taken then raise (PyException (already_exists_msg o))
  else
    bind (save_outputs a outputs o) (fun _ =>
    ret (mkLocals filepath dice (dicePath o)))))).

(** Line 119: the loop; [locals] is what earlier passes left bound. *)
Fixpoint loop (a : Args) (filepaths : list pyarg) (locals : option Locals)
  : M (option Locals) :=
  match filepaths with
  | [] => ret locals
  | filepath :: rest =>
      bind (iteration a filepath) (fun l => loop a rest (Some l))
  end.

(** Lines 157-159. *)
Definition summary (locals : option Locals) : M unit :=
  match locals with
  | None => raise (UnboundLocalError "filepath")
  | Some l =>
      bind (lift (getitem (loc_filepath l) 0)) (fun f0 =>
      bind (print f0) (fun _ =>
      bind (print ("Dice: " +:+ float_str (np_mean (loc_dice l)))) (fun _ =>
      np_save (loc_dicePath l) (loc_dice l))))
  end.

Definition validate_from_filepaths (filepaths : list pyarg) (a : Args)
  : M unit :=
  bind (loop a filepaths None) summary.

(** *** Reading the trace *)

(** The file an event writes, if it writes one. *)
Definition event_path (e : Event) : option string :=
  match e with
  | NibSave p _ | NpSave p _ => Some p
  | Print _ => None
  end.

Definition is_nib_save (e : Event) : Prop :=
  match e with
  | NibSave _ _ => True
  | _ => False
  end.

(** [e] is a volume that a pass over [filepath] may save: to the
    mean or the entropy path of its volume, or to the variance path
    when the variance is included. *)
Definition pass_event (a : Args) (filepath : pyarg) (e : Event) : Prop :=
  exists f0 v,
    getitem filepath 0 = inr f0 /\
    let o := derive_paths f0 in
    (e = NibSave (Pathlib.str (meanPath o)) v \/
     e = NibSave (Pathlib.str (entropyPath o)) v \/
     (includeVariance a = true /\
      e = NibSave (Pathlib.str (variancePath o)) v)).

End Validate.

Arguments ImgFile {Volume} v.
Arguments NpyFile {Volume} d.
Arguments NibSave {Volume} path v.
Arguments NpSave {Volume} path d.
Arguments Print {Volume} line.
Arguments mkWorld {Volume} files trace.
Arguments files {Volume} w.
Arguments trace {Volume} w.
Arguments ret {Volume A} a w.
Arguments raise {Volume A} e w.
Arguments bind {Volume A B} m k w.
Arguments lift {Volume A} r w.
Arguments reading {Volume A} f w.
Arguments is_file {Volume} fs p.
Arguments nib_save {Volume} nib_save_refuses v p w.
Arguments np_save {Volume} np_save_refuses p d w.
Arguments print {Volume} line w.
Arguments dice_loop {Volume Mask}
  np_equal dice_numpy prediction_image y classes dice.
Arguments validate_from_filepath {Volume Mask Mapping Predictor Normalizer}
  nib_load read_mapping _predict replace np_equal dice_numpy fs filepath a.
Arguments includeVariance {Predictor Normalizer} a.
Arguments save_outputs {Volume Predictor Normalizer}
  nib_save_refuses a outputs o w.
Arguments iteration {Volume Mask Mapping Predictor Normalizer}
  nib_load read_mapping _predict replace np_equal dice_numpy nib_save_refuses
  a filepath w.
Arguments loop {Volume Mask Mapping Predictor Normalizer}
  nib_load read_mapping _predict replace np_equal dice_numpy nib_save_refuses
  a filepaths locals w.
Arguments summary {Volume} np_mean float_str np_save_refuses locals w.
Arguments validate_from_filepaths {Volume Mask Mapping Predictor Normalizer}
  nib_load read_mapping _predict replace np_equal dice_numpy np_mean float_str
  nib_save_refuses np_save_refuses filepaths a w.
Arguments event_path {Volume} e.
Arguments is_nib_save {Volume} e.
Arguments pass_event {Volume Predictor Normalizer} a filepath e.
Arguments mkArgs {Predictor Normalizer}.
Arguments predictor {Predictor Normalizer} a.
Arguments block_shape {Predictor Normalizer} a.
Arguments n_classes {Predictor Normalizer} a.
Arguments mapping_y {Predictor Normalizer} a.
Arguments returnVariance {Predictor Normalizer} a.
Arguments returnEntropy {Predictor Normalizer} a.
Arguments returnArrayFromImages {Predictor Normalizer} a.
Arguments n_samples {Predictor Normalizer} a.
Arguments normalizer {Predictor Normalizer} a.
Arguments batch_size {Predictor Normalizer} a.
Arguments dtype {Predictor Normalizer} a.

(** ** A concrete set of collaborators

    Small stand-ins on which the functions above can be run: a volume
    is the list of its voxel labels, the predictor answers with the
    input itself as mean, and the metric is the Dice coefficient of the
    glossary. *)

Module Sample.

Definition Volume : Type := list nat.
Definition Mask : Type := list bool.
Definition Mapping : Type := list (nat * nat).

Definition nib_load (fs : gmap string (FileData Volume)) (path : string)
  : result Volume :=
  match fs !! Pathlib.str (Pathlib.parse path) with
  | Some (ImgFile v) => inr v
  | Some (NpyFile _) => inl (Propagated "ImageFileError")
  | None => inl (FileNotFoundError path)
  end.

Definition read_mapping (_ : gmap string (FileData Volume)) (_ : string)
  : result Mapping :=
  inr [(10, 1); (20, 2)].

Fixpoint assoc (m : Mapping) (x : nat) : nat :=
  match m with
  | [] => x
  | (k, v) :: rest => if Nat.eqb k x then v else assoc rest x
  end.

Definition replace (v : Volume) (m : Mapping) : result Volume :=
  inr (List.map (assoc m) v).

Definition _predict (img : Volume) (_ : unit) (_ : Z * Z * Z)
           (returnVariance returnEntropy _ : bool) (n_samples : Z)
           (_ : unit) (_ : Z) : result (list Volume) :=
  let blank := List.map (fun _ => 0) img in
  inr (img :: (if (1 <? n_samples)%Z && returnVariance then [blank] else [])
           ++ (if returnEntropy then [blank] else [])).

Definition np_equal (v : Volume) (i : nat) : Mask := List.map (Nat.eqb i) v.

Definition count (m : Mask) : nat := List.length (List.filter id m).

Fixpoint both (u v : Mask) : Mask :=
  match u, v with
  | a :: u', b :: v' => (a && b) :: both u' v'
  | _, _ => []
  end.

(** Two empty masks count as identical. *)
Definition dice_numpy (u v : Mask) : result npfloat :=
  match (count u + count v)%nat with
  | O => inr (Finite 1)
  | S n => inr (Finite (Z.of_nat (2 * count (both u v))
                        # Pos.of_succ_nat n))
  end.

Definition np_mean (d : list npfloat) : npfloat :=
  match d with
  | [] => NaN
  | _ =>
      List.fold_right
        (fun x acc =>
           match x, acc with
           | Finite q, Finite s =>
               Finite (Qred (s + q / inject_Z (Z.of_nat (List.length d))))
           | _, _ => NaN
           end) (Finite 0) d
  end.

Definition float_str (x : npfloat) : string :=
  match x with
  | Finite q => pretty (Qnum q) +:+ "/" +:+ pretty (Zpos (Qden q))
  | Inf true => "-inf"
  | Inf false => "inf"
  | NaN => "nan"
  end.

Definition nib_save_refuses (_ : Volume) (_ : string) : option exn := None.
Definition np_save_refuses (_ : string) : option exn := None.

Definition validate_from_filepath :=
  validate_from_filepath (Predictor := unit) (Normalizer := unit)
    nib_load read_mapping _predict replace np_equal dice_numpy.

Definition iteration :=
  iteration (Predictor := unit) (Normalizer := unit)
    nib_load read_mapping _predict replace np_equal dice_numpy
    nib_save_refuses.

Definition validate_from_filepaths :=
  validate_from_filepaths (Predictor := unit) (Normalizer := unit)
    nib_load read_mapping _predict replace np_equal dice_numpy
    np_mean float_str nib_save_refuses np_save_refuses.

(** A store with two volumes and one ground truth, and two inputs
    that pass the check of line 57. *)
Definition store : gmap string (FileData Volume) :=
  <["vol.nii.gz" := ImgFile [0; 1; 1; 2]]>
    (<["b.nii" := ImgFile [2; 2; 0; 1]]>
       (<["gt.nii.gz" := ImgFile [0; 10; 1; 1]]> ∅)).

Definition world : World Volume := mkWorld store [].

Definition pair : pyarg :=
  PathLikeSeq "vol.nii.gz" ["vol.nii.gz"; "gt.nii.gz"].

Definition pair2 : pyarg :=
  PathLikeSeq "b.nii" ["b.nii"; "gt.nii.gz"].

Definition args (n_classes : Z) (returnVariance returnEntropy : bool)
           (n_samples : Z) : Args unit unit :=
  mkArgs tt (32, 32, 32)%Z n_classes "mapping.csv" returnVariance
         returnEntropy false n_samples tt 4%Z "float32".

(** The world after one pass over [pair] with three samples and both
    secondary volumes asked for. *)
Definition saved3 : list (Event Volume) :=
  [NibSave "vol.nii_mean..nii..gz" [0; 1; 1; 2];
   NibSave "vol.nii_variance..nii..gz" [0; 0; 0; 0];
   NibSave "vol.nii_entropy..nii..gz" [0; 0; 0; 0]].

Definition world_after_pair : World Volume :=
  mkWorld
    (<["vol.nii_entropy..nii..gz" := ImgFile [0; 0; 0; 0]]>
       (<["vol.nii_variance..nii..gz" := ImgFile [0; 0; 0; 0]]>
          (<["vol.nii_mean..nii..gz" := ImgFile [0; 1; 1; 2]]> store)))
    saved3.

Definition args3 : Args unit unit := args 3 true true 3.
Definition args_mean_only : Args unit unit := args 3 false false 1.
Definition args_single : Args unit unit := args 2 true true 1.
Definition out_pair : OutPaths := derive_paths "vol.nii.gz".

(** The world after the batch over [pair] and [pair2] with one
    sample. *)
Definition world_after_batch : World Volume :=
  mkWorld
    (<["b_dice.npy" := NpyFile [Finite (0 # 2); Finite (2 # 4)]]>
       (<["b_entropy..nii" := ImgFile [0; 0; 0; 0]]>
          (<["b_mean..nii" := ImgFile [2; 2; 0; 1]]>
             (<["vol.nii_entropy..nii..gz" := ImgFile [0; 0; 0; 0]]>
                (<["vol.nii_mean..nii..gz" := ImgFile [0; 1; 1; 2]]>
                   store)))))
    [NibSave "vol.nii_mean..nii..gz" [0; 1; 1; 2];
     NibSave "vol.nii_entropy..nii..gz" [0; 0; 0; 0];
     NibSave "b_mean..nii" [2; 2; 0; 1];
     NibSave "b_entropy..nii" [0; 0; 0; 0];
     Print "b.nii";
     Print "Dice: 1/4";
     NpSave "b_dice.npy" [Finite (0 # 2); Finite (2 # 4)]].

Definition dice_pair : list npfloat :=
  [Finite (2 # 2); Finite (4 # 5); Finite 0].

Definition dice_pair2 : list npfloat :=
  [Finite (0 # 2); Finite (2 # 4)].

Definition locals_pair : Locals :=
  mkLocals pair dice_pair (Pathlib.mkPath "" ["vol.nii_dice.npy"]).

End Sample.

(** More inputs for the runs further down. *)

Module SampleMore.

(** A predictor that answers with two outputs whatever is asked. *)
Definition predict_two (img : Sample.Volume) (_ : unit) (_ : Z * Z * Z)
           (_ _ _ : bool) (_ : Z) (_ : unit) (_ : Z)
  : result (list Sample.Volume) :=
  inr [img; List.map (fun _ => 0) img].

(** Arrays instead of images. *)
Definition args_arrays : Args unit unit :=
  mkArgs tt (32, 32, 32)%Z 3%Z "mapping.csv" true true true 3%Z tt 4%Z
         "float32".

Definition args_negative : Args unit unit := Sample.args (-1) false false 1.


Definition missing_truth : pyarg :=
  PathLikeSeq "vol.nii.gz" ["vol.nii.gz"; "absent.nii.gz"].

(** The world after the mean of [Sample.pair] alone was saved, and
    after its mean and its variance were. *)
Definition world_mean_only : World Sample.Volume :=
  mkWorld (<["vol.nii_mean..nii..gz" := ImgFile [0; 1; 1; 2]]> Sample.store)
          [NibSave "vol.nii_mean..nii..gz" [0; 1; 1; 2]].

Definition world_mean_variance : World Sample.Volume :=
  mkWorld
    (<["vol.nii_variance..nii..gz" := ImgFile [0; 0; 0; 0]]>
       (<["vol.nii_mean..nii..gz" := ImgFile [0; 1; 1; 2]]> Sample.store))
    [NibSave "vol.nii_mean..nii..gz" [0; 1; 1; 2];
     NibSave "vol.nii_variance..nii..gz" [0; 0; 0; 0]].

Definition outputs3 : list Sample.Volume :=
  [[0; 1; 1; 2]; [0; 0; 0; 0]; [0; 0; 0; 0]].

End SampleMore.

(** * Facts *)

(** ** Strings *)

Lemma contains_app c s1 s2 :
  PyStr.contains c (s1 +:+ s2) = PyStr.contains c s1 || PyStr.contains c s2.
Proof.
  induction s1 as [|a s1 IH]; simpl; [done|].
  rewrite IH. by rewrite orb_assoc.
Qed.

Lemma split_nonempty c s : PyStr.split c s <> [].
Proof.
  destruct s as [|a s]; simpl; [done|].
  destruct (Ascii.eqb a c); [done|]. by destruct (PyStr.split c s).
Qed.

Lemma split_preserves c d s :
  PyStr.contains c s = false ->
  Forall (fun x => PyStr.contains c x = false) (PyStr.split d s).
Proof.
  induction s as [|a s IH]; simpl; intros H.
  - by constructor.
  - apply orb_false_iff in H as [Ha Hs]. specialize (IH Hs).
    destruct (Ascii.eqb a d).
    + by constructor.
    + destruct (PyStr.split d s) as [|w ws].
      * constructor; [|done]. simpl. by rewrite Ha.
      * inversion IH; subst. constructor; [|done]. simpl. by rewrite Ha.
Qed.

Lemma split_absent c s : PyStr.contains c s = false -> PyStr.split c s = [s].
Proof.
  induction s as [|a s IH]; simpl; intros H; [done|].
  apply orb_false_iff in H as [Ha Hs]. rewrite Ha, (IH Hs). done.
Qed.

Lemma contains_substring c s n m :
  PyStr.contains c s = false ->
  PyStr.contains c (String.substring n m s) = false.
Proof.
  revert n m. induction s as [|a s IH]; intros n m H.
  - by destruct n, m.
  - simpl in H. apply orb_false_iff in H as [Ha Hs].
    destruct n as [|n]; simpl.
    + destruct m as [|m]; [done|]. simpl. rewrite Ha. by apply IH.
    + by apply IH.
Qed.

Lemma contains_lstrip c d s :
  PyStr.contains c s = false -> PyStr.contains c (PyStr.lstrip d s) = false.
Proof.
  induction s as [|a s IH]; simpl; intros H; [done|].
  destruct (Ascii.eqb a d); [|done].
  apply orb_false_iff in H as [_ Hs]. by apply IH.
Qed.

Lemma contains_join c sep l :
  PyStr.contains c sep = false ->
  Forall (fun x => PyStr.contains c x = false) l ->
  PyStr.contains c (PyStr.join sep l) = false.
Proof.
  intros Hsep. induction 1 as [|x l Hx Hl IH]; [done|].
  destruct l as [|y l]; [done|].
  change (PyStr.join sep (x :: y :: l))
    with (x +:+ sep +:+ PyStr.join sep (y :: l)).
  by rewrite !contains_app, Hx, Hsep, IH.
Qed.

Lemma contains_last c (l : list string) :
  Forall (fun x => PyStr.contains c x = false) l ->
  PyStr.contains c (List.last l "") = false.
Proof.
  induction 1 as [|x l Hx Hl IH]; [done|].
  destruct l; [done|]. exact IH.
Qed.

(** ** Paths *)

Lemma splitroot_rel_slash s :
  PyStr.contains PyStr.slash s = false -> Pathlib.splitroot s = ("", s).
Proof.
  destruct s as [|a s]; [done|]. simpl. intros H.
  apply orb_false_iff in H as [Ha _]. by rewrite Ha.
Qed.

Lemma names_no_slash s :
  Forall (fun x => PyStr.contains PyStr.slash x = false)
         (Pathlib.names (Pathlib.parse s)).
Proof.
  unfold Pathlib.parse. destruct (Pathlib.splitroot s) as [r rel]. simpl.
  apply Forall_forall. intros x Hx.
  apply list_elem_of_In, filter_In in Hx as [Hx _].
  apply list_elem_of_In in Hx. revert x Hx. apply Forall_forall.
  clear. induction rel as [|a rel IH]; simpl.
  - by constructor.
  - destruct (Ascii.eqb a PyStr.slash) eqn:Ha.
    + by constructor.
    + destruct (PyStr.split PyStr.slash rel) as [|w ws].
      * constructor; [|done]. simpl. by rewrite Ha.
      * inversion IH; subst. constructor; [|done]. simpl. by rewrite Ha.
Qed.

Lemma name_no_slash s :
  PyStr.contains PyStr.slash (Pathlib.name (Pathlib.parse s)) = false.
Proof. apply contains_last, names_no_slash. Qed.

Lemma stem_no_slash s :
  PyStr.contains PyStr.slash (Pathlib.stem (Pathlib.parse s)) = false.
Proof.
  unfold Pathlib.stem. pose proof (name_no_slash s) as H.
  destruct (PyStr.rfind _ _); [|done].
  destruct (_ && _); [|done]. by apply contains_substring.
Qed.

Lemma suffixes_no_slash s :
  PyStr.contains PyStr.slash
    (PyStr.join "." (Pathlib.suffixes (Pathlib.parse s))) = false.
Proof.
  apply contains_join; [done|]. unfold Pathlib.suffixes.
  destruct (PyStr.endswith _ _); [by constructor|].
  pose proof (split_preserves PyStr.slash PyStr.dot _
                (contains_lstrip _ PyStr.dot _ (name_no_slash s))) as H.
  destruct (PyStr.split _ _) as [|w ws]; [by constructor|].
  inversion H; subst. simpl.
  apply Forall_forall. intros x Hx.
  apply list_elem_of_In, in_map_iff in Hx as (y & <- & Hy).
  rewrite Forall_forall in H3. simpl. by apply H3, list_elem_of_In.
Qed.

(** [p / s] appends [s] as one name when [s] is a plain file name. *)
Lemma joinpath_plain p s :
  PyStr.contains PyStr.slash s = false ->
  Pathlib.keep_name s = true ->
  Pathlib.joinpath p s =
  Pathlib.mkPath (Pathlib.root p) (Pathlib.names p ++ [s]).
Proof.
  intros Hs Hk. unfold Pathlib.joinpath, Pathlib.parse.
  rewrite (splitroot_rel_slash _ Hs), (split_absent _ _ Hs). simpl.
  by rewrite Hk.
Qed.

Lemma join_snoc_inj (l : list string) s1 s2 :
  PyStr.join "/" (l ++ [s1]) = PyStr.join "/" (l ++ [s2]) -> s1 = s2.
Proof.
  induction l as [|x l IH]; simpl; [done|].
  destruct (l ++ [s1]) as [|y1 l1] eqn:E1; [by destruct l|].
  destruct (l ++ [s2]) as [|y2 l2] eqn:E2; [by destruct l|].
  intros H. apply String.app_inj in H. apply String.app_inj in H. auto.
Qed.

Lemma str_snoc_inj r (l : list string) s1 s2 :
  Pathlib.str (Pathlib.mkPath r (l ++ [s1])) =
  Pathlib.str (Pathlib.mkPath r (l ++ [s2])) -> s1 = s2.
Proof.
  unfold Pathlib.str. simpl.
  destruct (l ++ [s1]) as [|y1 l1] eqn:E1; [by destruct l|].
  destruct (l ++ [s2]) as [|y2 l2] eqn:E2; [by destruct l|].
  rewrite <- E1, <- E2. intros H. apply String.app_inj in H.
  by apply join_snoc_inj in H.
Qed.

Lemma keep_name_tagged s :
  PyStr.contains "_" s = true -> Pathlib.keep_name s = true.
Proof.
  intros H. unfold Pathlib.keep_name.
  destruct (String.eqb_spec s "") as [->|_]; [done|].
  by destruct (String.eqb_spec s ".") as [->|_].
Qed.

(** A derived path is the directory of the input followed by one name:
    the stem, the tag, and for the volumes the joined suffixes. *)
Lemma joinpath_tagged volume tag :
  PyStr.contains PyStr.slash tag = false ->
  PyStr.contains "_" tag = true ->
  let p := Pathlib.parse volume in
  Pathlib.joinpath (Pathlib.parent p) (Pathlib.stem p +:+ tag) =
  Pathlib.mkPath (Pathlib.root p)
    (List.removelast (Pathlib.names p) ++ [Pathlib.stem p +:+ tag]).
Proof.
  intros Hs Hu p. subst p. apply joinpath_plain.
  - by rewrite contains_app, stem_no_slash, Hs.
  - apply keep_name_tagged. rewrite contains_app, Hu. apply orb_true_r.
Qed.

Lemma derive_paths_shape volume :
  let p := Pathlib.parse volume in
  let X := PyStr.join "." (Pathlib.suffixes p) in
  let child tag :=
    Pathlib.mkPath (Pathlib.root p)
      (List.removelast (Pathlib.names p) ++ [Pathlib.stem p +:+ tag]) in
  derive_paths volume =
  {| meanPath := child ("_mean." +:+ X);
     variancePath := child ("_variance." +:+ X);
     entropyPath := child ("_entropy." +:+ X);
     dicePath := child "_dice.npy" |}.
Proof.
  intros p X child. unfold derive_paths. fold p. fold X.
  pose proof (suffixes_no_slash volume) as HX. fold p in HX. fold X in HX.
  assert (forall t, PyStr.contains PyStr.slash t = false ->
                    PyStr.contains PyStr.slash (t +:+ X) = false) as Hs.
  { intros t Ht. by rewrite contains_app, Ht, HX. }
  unfold child. subst p.
  rewrite <- !joinpath_tagged; first done;
    try (by apply (Hs "_mean.")); try (by apply (Hs "_variance."));
    try (by apply (Hs "_entropy.")); done.
Qed.

(** The four targets of one input are different files. *)
Lemma out_paths_distinct volume :
  let o := derive_paths volume in
  Pathlib.str (meanPath o) <> Pathlib.str (variancePath o) /\
  Pathlib.str (entropyPath o) <> Pathlib.str (variancePath o) /\
  Pathlib.str (dicePath o) <> Pathlib.str (variancePath o) /\
  Pathlib.str (meanPath o) <> Pathlib.str (entropyPath o).
Proof.
  intros o. subst o. rewrite derive_paths_shape. simpl.
  repeat split; intros H; apply str_snoc_inj, String.app_inj in H;
    simpl in H; discriminate.
Qed.

(** ** Telling the targets apart *)

Lemma count_app c s1 s2 :
  PyStr.count c (s1 +:+ s2) = (PyStr.count c s1 + PyStr.count c s2)%nat.
Proof. induction s1 as [|a s1 IH]; simpl; [done|]. rewrite IH. lia. Qed.

Lemma count_free c s : PyStr.contains c s = false <-> PyStr.count c s = 0%nat.
Proof.
  induction s as [|a s IH]; simpl; [done|].
  destruct (Ascii.eqb a c); simpl; [split; [done|lia] | exact IH].
Qed.

Lemma split_pieces_free c s :
  Forall (fun x => PyStr.contains c x = false) (PyStr.split c s).
Proof.
  induction s as [|a s IH]; simpl.
  - by constructor.
  - destruct (Ascii.eqb a c) eqn:Ha.
    + by constructor.
    + destruct (PyStr.split c s) as [|w ws].
      * constructor; [|done]. simpl. by rewrite Ha.
      * inversion IH; subst. constructor; [|done]. simpl. by rewrite Ha.
Qed.

Lemma split_length c s :
  length (PyStr.split c s) = S (PyStr.count c s).
Proof.
  induction s as [|a s IH]; simpl; [done|].
  destruct (Ascii.eqb a c); simpl; [by rewrite IH|].
  destruct (PyStr.split c s); simpl in *; lia.
Qed.

Lemma count_lstrip c s :
  PyStr.count c s = (PyStr.lead c s + PyStr.count c (PyStr.lstrip c s))%nat.
Proof.
  induction s as [|a s IH]; simpl; [done|].
  destruct (Ascii.eqb a c) eqn:Ha; simpl; [lia|]. by rewrite Ha.
Qed.

Lemma rfind_none c s : PyStr.rfind c s = None -> PyStr.count c s = 0%nat.
Proof.
  induction s as [|a s IH]; simpl; [done|].
  destruct (PyStr.rfind c s); [done|].
  destruct (Ascii.eqb a c); [done|]. intros _. by apply IH.
Qed.

Lemma lstrip_free c s : PyStr.count c s = 0%nat -> PyStr.lstrip c s = s.
Proof.
  destruct s as [|a s]; simpl; [done|]. by destruct (Ascii.eqb a c).
Qed.

(** The last occurrence lies behind the leading run as soon as the
    stripped string has an occurrence at all. *)
Lemma rfind_behind_lead c s i :
  PyStr.rfind c s = Some i ->
  (0 < PyStr.count c (PyStr.lstrip c s))%nat ->
  (PyStr.lead c s < i)%nat.
Proof.
  revert i. induction s as [|a s IH]; intros i; simpl; [done|].
  destruct (PyStr.rfind c s) as [j|] eqn:Hr.
  - intros [= <-]. destruct (Ascii.eqb a c) eqn:Ha; [|lia].
    intros Hc. specialize (IH j eq_refl Hc). lia.
  - destruct (Ascii.eqb a c) eqn:Ha; [|done]. intros [= <-] Hc.
    apply rfind_none in Hr. rewrite (lstrip_free _ _ Hr) in Hc. lia.
Qed.

Lemma rfind_prefix_count c s i :
  PyStr.rfind c s = Some i ->
  S (PyStr.count c (PyStr.prefix i s)) = PyStr.count c s.
Proof.
  unfold PyStr.prefix. revert i.
  induction s as [|a s IH]; intros i; simpl; [done|].
  destruct (PyStr.rfind c s) as [j|] eqn:Hr.
  - intros [= <-]. simpl. rewrite <- (IH j eq_refl). lia.
  - destruct (Ascii.eqb a c) eqn:Ha; [|done]. intros [= <-]. simpl.
    by rewrite (rfind_none _ _ Hr).
Qed.

Lemma rfind_not_last c s i :
  PyStr.rfind c s = Some i -> PyStr.endswith c s = false ->
  (S i < String.length s)%nat.
Proof.
  revert i. induction s as [|a s IH]; intros i; [done|].
  destruct s as [|b s].
  - simpl. destruct (Ascii.eqb a c); [|done]. by intros [= <-].
  - change (PyStr.endswith c (String a (String b s)))
      with (PyStr.endswith c (String b s)).
    change (PyStr.rfind c (String a (String b s)))
      with (match PyStr.rfind c (String b s) with
            | Some i => Some (S i)
            | None => if Ascii.eqb a c then Some 0%nat else None
            end).
    destruct (PyStr.rfind c (String b s)) as [j|] eqn:Hr.
    + intros [= <-] He. specialize (IH j eq_refl He). simpl in *. lia.
    + destruct (Ascii.eqb a c); [|done]. intros [= <-] _. simpl. lia.
Qed.

Lemma rfind_lt_length c s i :
  PyStr.rfind c s = Some i -> (i < String.length s)%nat.
Proof.
  revert i. induction s as [|a s IH]; intros i; simpl; [done|].
  destruct (PyStr.rfind c s) as [j|].
  - intros [= <-]. specialize (IH j eq_refl). lia.
  - destruct (Ascii.eqb a c); [|done]. intros [= <-]. lia.
Qed.

Lemma lead_prefix_app c s i t :
  (PyStr.lead c s < i)%nat -> (PyStr.lead c s < String.length s)%nat ->
  PyStr.lead c (PyStr.prefix i s +:+ t) = PyStr.lead c s.
Proof.
  unfold PyStr.prefix. revert i.
  induction s as [|a s IH]; intros i; simpl; [lia|].
  destruct i as [|i]; [lia|]. simpl.
  destruct (Ascii.eqb a c); [|done]. intros H1 H2. rewrite IH; [done|lia..].
Qed.

(** Suffix and prefix comparisons. *)

Lemma app_assoc_str (s1 s2 s3 : string) :
  (s1 +:+ s2) +:+ s3 = s1 +:+ (s2 +:+ s3).
Proof.
  induction s1 as [|a s1 IH]; [done|].
  change (String a ((s1 +:+ s2) +:+ s3) = String a (s1 +:+ s2 +:+ s3)).
  by f_equal.
Qed.

Lemma length_app (s1 s2 : string) :
  String.length (s1 +:+ s2) = (String.length s1 + String.length s2)%nat.
Proof. induction s1 as [|a s1 IH]; simpl; [done|]. by rewrite IH. Qed.

Lemma app_same_length_tail (x y s t : string) :
  x +:+ s = y +:+ t -> String.length s = String.length t ->
  x = y /\ s = t.
Proof.
  revert y. induction x as [|a x IH]; intros [|b y]; simpl; intros H Hl.
  - done.
  - exfalso. apply (f_equal String.length) in H. simpl in H.
    rewrite !length_app in H. simpl in H. lia.
  - exfalso. apply (f_equal String.length) in H. simpl in H.
    rewrite !length_app in H. simpl in H. lia.
  - injection H as -> H. destruct (IH y H Hl) as [-> ->]. done.
Qed.

(** Two strings that agree up to and including the same occurrence of
    [c] agree before it. *)
Lemma app_same_count_head c (u u' v v' : string) :
  u +:+ String c v = u' +:+ String c v' ->
  PyStr.count c u = PyStr.count c u' -> u = u'.
Proof.
  revert u'. induction u as [|a u IH]; intros [|b u']; simpl.
  - done.
  - intros [= <- _]. rewrite Ascii.eqb_refl. simpl. lia.
  - intros [= -> _]. rewrite Ascii.eqb_refl. simpl. lia.
  - intros [= -> H] Hc. f_equal. apply IH; [done|].
    destruct (Ascii.eqb b c); lia.
Qed.

Lemma endswith_snoc c (x : string) :
  PyStr.endswith c (x +:+ String c "") = true.
Proof.
  induction x as [|a x IH]; simpl; [apply Ascii.eqb_refl|].
  destruct (x +:+ String c "") eqn:E; [by destruct x|]. exact IH.
Qed.

Lemma endswith_free c s :
  PyStr.contains c s = false -> PyStr.endswith c s = false.
Proof.
  induction s as [|a s IH]; [done|]. simpl. intros H.
  apply orb_false_iff in H as [Ha Hs]. destruct s; [done|]. by apply IH.
Qed.

Lemma endswith_app_free c (x s : string) :
  s <> "" -> PyStr.contains c s = false ->
  PyStr.endswith c (x +:+ s) = false.
Proof.
  intros Hne Hs. induction x as [|a x IH]; simpl; [by apply endswith_free|].
  destruct (x +:+ s) eqn:E; [|exact IH].
  destruct x; simpl in E; [by subst|done].
Qed.

Lemma endswith_lstrip c s :
  PyStr.endswith c s = false -> PyStr.endswith c (PyStr.lstrip c s) = false.
Proof.
  induction s as [|a s IH]; [done|].
  change (PyStr.lstrip c (String a s))
    with (if Ascii.eqb a c then PyStr.lstrip c s else String a s).
  destruct (Ascii.eqb a c) eqn:Ha; [|done].
  destruct s as [|b s]; [simpl; by rewrite Ha|]. exact IH.
Qed.

Lemma split_last_nonempty c s :
  s <> "" -> PyStr.endswith c s = false ->
  List.last (PyStr.split c s) "" <> "".
Proof.
  induction s as [|a s IH]; [done|]. intros _ He.
  destruct s as [|b s].
  - simpl in *. by rewrite He.
  - specialize (IH ltac:(done) He).
    change (PyStr.split c (String a (String b s)))
      with (if Ascii.eqb a c then "" :: PyStr.split c (String b s)
            else match PyStr.split c (String b s) with
                 | [] => [String a ""]
                 | w :: ws => String a w :: ws
                 end).
    pose proof (split_nonempty c (String b s)) as Hn.
    destruct (PyStr.split c (String b s)) as [|w ws]; [done|].
    destruct (Ascii.eqb a c).
    + exact IH.
    + destruct ws; [done|]. exact IH.
Qed.

Lemma join_snoc sep (l : list string) x :
  l <> [] -> PyStr.join sep (l ++ [x]) = PyStr.join sep l +:+ sep +:+ x.
Proof.
  induction l as [|y l IH]; [done|]. intros _.
  destruct l as [|z l]; [done|].
  change (PyStr.join sep ((y :: z :: l) ++ [x]))
    with (y +:+ sep +:+ PyStr.join sep ((z :: l) ++ [x])).
  rewrite IH by done.
  change (PyStr.join sep (y :: z :: l))
    with (y +:+ sep +:+ PyStr.join sep (z :: l)).
  by rewrite !app_assoc_str.
Qed.

Lemma join_suffix_count c (l : list string) :
  Forall (fun x => PyStr.contains c x = false) l -> l <> [] ->
  S (PyStr.count c (PyStr.join (String c "")
                      (List.map (fun x => String c "" +:+ x) l)))
  = (2 * length l)%nat.
Proof.
  induction 1 as [|x l Hx Hl IH]; [done|]. intros _.
  apply count_free in Hx.
  destruct l as [|y l].
  - simpl. rewrite count_app. simpl. rewrite Ascii.eqb_refl, Hx. done.
  - specialize (IH ltac:(done)).
    change (PyStr.join (String c "")
              (List.map (fun x => String c "" +:+ x) (x :: y :: l)))
      with ((String c "" +:+ x) +:+ String c "" +:+
            PyStr.join (String c "")
              (List.map (fun x => String c "" +:+ x) (y :: l))).
    rewrite !count_app. simpl (PyStr.count c (String c "")).
    rewrite Ascii.eqb_refl, Hx. simpl length in *. lia.
Qed.

(** *** Names with suffixes *)

Lemma suffixes_inv p :
  Pathlib.suffixes p <> [] ->
  PyStr.endswith PyStr.dot (Pathlib.name p) = false /\
  exists w l,
    PyStr.split PyStr.dot (PyStr.lstrip PyStr.dot (Pathlib.name p)) = w :: l /\
    l <> [] /\
    Pathlib.suffixes p = List.map (fun x => "." +:+ x) l.
Proof.
  unfold Pathlib.suffixes.
  destruct (PyStr.endswith PyStr.dot (Pathlib.name p)); [done|].
  intros H. split; [done|].
  destruct (PyStr.split _ _) as [|w l] eqn:E; [done|].
  exists w, l. split; [done|]. split; [|done]. by intros ->.
Qed.

(** For a name with [k] suffixes and [d] leading dots: the stem has
    [d + k - 1] dots and the same leading dots, the joined suffixes have
    [2k - 1] dots, start with a dot and end with a non-empty piece
    without dots that follows two dots. *)
Lemma suffixed_profile p :
  Pathlib.suffixes p <> [] ->
  exists k R s,
    (0 < k)%nat /\
    S (PyStr.count PyStr.dot (Pathlib.stem p))
    = (PyStr.lead PyStr.dot (Pathlib.name p) + k)%nat /\
    (forall t, PyStr.lead PyStr.dot (Pathlib.stem p +:+ t)
               = PyStr.lead PyStr.dot (Pathlib.name p)) /\
    S (PyStr.count PyStr.dot (PyStr.join "." (Pathlib.suffixes p)))
    = (2 * k)%nat /\
    "." +:+ PyStr.join "." (Pathlib.suffixes p) = R +:+ ".." +:+ s /\
    PyStr.contains PyStr.dot s = false /\ s <> "".
Proof.
  intros Hs. apply suffixes_inv in Hs as (He & w & l & Hsplit & Hl & ->).
  set (n := Pathlib.name p) in *.
  assert (length l = PyStr.count PyStr.dot (PyStr.lstrip PyStr.dot n)) as Hk.
  { pose proof (split_length PyStr.dot (PyStr.lstrip PyStr.dot n)) as H.
    rewrite Hsplit in H. simpl in H. lia. }
  assert (0 < length l)%nat as Hpos by (destruct l; [done | simpl; lia]).
  pose proof (count_lstrip PyStr.dot n) as Hc.
  destruct (PyStr.rfind PyStr.dot n) as [i|] eqn:Hr;
    [|apply rfind_none in Hr; lia].
  pose proof (rfind_behind_lead _ _ _ Hr ltac:(lia)) as Hlead.
  pose proof (rfind_not_last _ _ _ Hr He) as Hlast.
  assert (Pathlib.stem p = PyStr.prefix i n) as Hstem.
  { unfold Pathlib.stem. fold n. rewrite Hr.
    destruct (Nat.ltb_spec 0 i); [|lia].
    destruct (Nat.ltb_spec i (String.length n - 1)); [done|lia]. }
  pose proof (split_pieces_free PyStr.dot (PyStr.lstrip PyStr.dot n)) as Hfree.
  rewrite Hsplit in Hfree. apply Forall_cons in Hfree as [_ Hfree].
  assert (List.last l "" <> "") as Hlastpiece.
  { pose proof (split_last_nonempty PyStr.dot (PyStr.lstrip PyStr.dot n)) as H.
    rewrite Hsplit in H. destruct l as [|x l]; [done|]. apply H.
    - intros E. rewrite E in Hk. simpl in Hk. lia.
    - by apply endswith_lstrip. }
  exists (length l).
  set (l' := List.removelast l) in *. set (s := List.last l "") in *.
  assert (l = l' ++ [s]) as Hsnoc by (by apply app_removelast_last).
  exists (match l' with
          | [] => ""
          | _ => "." +:+ PyStr.join "." (List.map (fun x => "." +:+ x) l')
          end), s.
  split; [done|]. split; [rewrite Hstem, (rfind_prefix_count _ _ _ Hr); lia|].
  split; [intros t; rewrite Hstem; apply lead_prefix_app; lia|].
  split; [by apply (join_suffix_count PyStr.dot)|].
  split; [|split; [|done]].
  - rewrite Hsnoc at 1. rewrite map_app. simpl List.map.
    destruct l' as [|x l0]; [done|].
    rewrite join_snoc by done. by rewrite !app_assoc_str.
  - rewrite Forall_forall in Hfree. apply Hfree.
    rewrite Hsnoc. apply elem_of_app. right. apply list_elem_of_here.
Qed.

(** Names built from a stem, a tag without dots, a dot and the joined
    suffixes agree only if they agree up to the tag. *)
Lemma tagged_names_agree p q (T1 T2 : string) :
  PyStr.contains PyStr.dot T1 = false ->
  PyStr.contains PyStr.dot T2 = false ->
  Pathlib.stem p +:+ T1 +:+ "." +:+ PyStr.join "." (Pathlib.suffixes p)
  = Pathlib.stem q +:+ T2 +:+ "." +:+ PyStr.join "." (Pathlib.suffixes q) ->
  Pathlib.stem p +:+ T1 = Pathlib.stem q +:+ T2.
Proof.
  intros H1 H2 H.
  assert (forall r T, Pathlib.suffixes r = [] ->
            PyStr.endswith PyStr.dot
              (Pathlib.stem r +:+ T +:+ "." +:+
               PyStr.join "." (Pathlib.suffixes r)) = true) as Hdot.
  { intros r T ->. simpl PyStr.join.
    rewrite <- (app_assoc_str _ T "."). apply endswith_snoc. }
  assert (forall r T, Pathlib.suffixes r <> [] ->
            PyStr.endswith PyStr.dot
              (Pathlib.stem r +:+ T +:+ "." +:+
               PyStr.join "." (Pathlib.suffixes r)) = false) as Hnodot.
  { intros r T Hr.
    destruct (suffixed_profile r Hr)
      as (k & R & s & _ & _ & _ & _ & HR & Hs & Hne).
    rewrite HR, <- (app_assoc_str R ".." s), <- (app_assoc_str T _ s),
      <- (app_assoc_str _ _ s).
    by apply endswith_app_free. }
  destruct (decide (Pathlib.suffixes p = [])) as [Hp|Hp];
    destruct (decide (Pathlib.suffixes q = [])) as [Hq|Hq].
  - rewrite Hp, Hq in H. simpl PyStr.join in H.
    rewrite <- (app_assoc_str _ T1 "."), <- (app_assoc_str _ T2 ".") in H.
    by apply app_same_length_tail in H as [? _].
  - pose proof (Hdot p T1 Hp) as E. rewrite H, (Hnodot q T2 Hq) in E. done.
  - pose proof (Hdot q T2 Hq) as E. rewrite <- H, (Hnodot p T1 Hp) in E. done.
  - destruct (suffixed_profile p Hp)
      as (kp & _ & _ & Hkp & Hsp & Hlp & HJp & _).
    destruct (suffixed_profile q Hq)
      as (kq & _ & _ & Hkq & Hsq & Hlq & HJq & _).
    pose proof (f_equal (PyStr.lead PyStr.dot) H) as Hlead.
    rewrite Hlp, Hlq in Hlead.
    pose proof (f_equal (PyStr.count PyStr.dot) H) as Hcount.
    rewrite !count_app in Hcount.
    apply count_free in H1, H2. rewrite H1, H2 in Hcount.
    simpl (PyStr.count PyStr.dot ".") in Hcount.
    apply (app_same_count_head PyStr.dot _ _
             (PyStr.join "." (Pathlib.suffixes p))
             (PyStr.join "." (Pathlib.suffixes q))).
    + rewrite !app_assoc_str. exact H.
    + rewrite !count_app, H1, H2. lia.
Qed.

(** *** The last name of a derived path *)

Lemma last_app_nonempty {A} (x y : list A) d :
  y <> [] -> List.last (x ++ y) d = List.last y d.
Proof.
  intros Hy. induction x as [|a x IH]; [done|].
  simpl. destruct (x ++ y) eqn:E; [|exact IH].
  by destruct x, y.
Qed.

Lemma split_app_sep c (x s : string) :
  PyStr.split c (x +:+ String c s) = PyStr.split c x ++ PyStr.split c s.
Proof.
  induction x as [|a x IH].
  - simpl. by rewrite Ascii.eqb_refl.
  - change (PyStr.split c (String a x +:+ String c s))
      with (if Ascii.eqb a c then "" :: PyStr.split c (x +:+ String c s)
            else match PyStr.split c (x +:+ String c s) with
                 | [] => [String a ""]
                 | w :: ws => String a w :: ws
                 end).
    rewrite IH.
    change (PyStr.split c (String a x))
      with (if Ascii.eqb a c then "" :: PyStr.split c x
            else match PyStr.split c x with
                 | [] => [String a ""]
                 | w :: ws => String a w :: ws
                 end).
    destruct (Ascii.eqb a c); [done|].
    pose proof (split_nonempty c x) as Hn.
    by destruct (PyStr.split c x).
Qed.

Lemma basename_after_slash (x s : string) :
  Pathlib.basename (x +:+ "/" +:+ s) = Pathlib.basename s.
Proof.
  unfold Pathlib.basename.
  change (x +:+ "/" +:+ s) with (x +:+ String PyStr.slash s).
  rewrite split_app_sep. apply last_app_nonempty, split_nonempty.
Qed.

Lemma basename_plain s :
  PyStr.contains PyStr.slash s = false -> Pathlib.basename s = s.
Proof. intros H. unfold Pathlib.basename. by rewrite split_absent. Qed.

Lemma root_cases v :
  Pathlib.root (Pathlib.parse v) = "" \/
  Pathlib.root (Pathlib.parse v) = "/" \/
  Pathlib.root (Pathlib.parse v) = "//".
Proof.
  unfold Pathlib.parse, Pathlib.splitroot.
  destruct v as [|a v]; [by left|].
  destruct (Ascii.eqb a PyStr.slash); [|by left].
  destruct (Nat.eqb _ _); simpl; auto.
Qed.

Lemma basename_str r (l : list string) s :
  r = "" \/ r = "/" \/ r = "//" ->
  PyStr.contains PyStr.slash s = false ->
  Pathlib.basename (Pathlib.str (Pathlib.mkPath r (l ++ [s]))) = s.
Proof.
  intros Hr Hs. unfold Pathlib.str. simpl.
  destruct (l ++ [s]) as [|y l1] eqn:E; [by destruct l|]. rewrite <- E.
  destruct l as [|x l].
  - simpl. destruct Hr as [->|[->| ->]].
    + by apply basename_plain.
    + etrans; [exact (basename_after_slash "" s)|]. by apply basename_plain.
    + etrans; [exact (basename_after_slash "/" s)|]. by apply basename_plain.
  - rewrite join_snoc by done. rewrite <- app_assoc_str.
    rewrite basename_after_slash. by apply basename_plain.
Qed.

Lemma derived_basenames v :
  let p := Pathlib.parse v in
  let X := PyStr.join "." (Pathlib.suffixes p) in
  let o := derive_paths v in
  Pathlib.basename (Pathlib.str (meanPath o))
  = Pathlib.stem p +:+ "_mean." +:+ X /\
  Pathlib.basename (Pathlib.str (variancePath o))
  = Pathlib.stem p +:+ "_variance." +:+ X /\
  Pathlib.basename (Pathlib.str (entropyPath o))
  = Pathlib.stem p +:+ "_entropy." +:+ X /\
  Pathlib.basename (Pathlib.str (dicePath o))
  = Pathlib.stem p +:+ "_dice.npy".
Proof.
  intros p X o. subst o. rewrite derive_paths_shape. fold p. fold X. simpl.
  pose proof (root_cases v) as Hr. fold p in Hr.
  pose proof (stem_no_slash v) as Hs. fold p in Hs.
  pose proof (suffixes_no_slash v) as HX. fold p in HX. fold X in HX.
  repeat split; apply basename_str; try done;
    rewrite !contains_app, Hs, ?HX; done.
Qed.

(** No mean, entropy or dice target of any input is the variance target
    of any input. *)
Lemma variance_target_apart a b :
  let vb := Pathlib.str (variancePath (derive_paths b)) in
  Pathlib.str (meanPath (derive_paths a)) <> vb /\
  Pathlib.str (entropyPath (derive_paths a)) <> vb /\
  Pathlib.str (dicePath (derive_paths a)) <> vb.
Proof.
  intros vb. subst vb.
  destruct (derived_basenames a) as (Hm & _ & He & Hd).
  destruct (derived_basenames b) as (_ & Hv & _ & _).
  set (pa := Pathlib.parse a) in *. set (pb := Pathlib.parse b) in *.
  repeat split; intros H; apply (f_equal Pathlib.basename) in H.
  - rewrite Hm, Hv in H.
    apply (tagged_names_agree pa pb "_mean" "_variance") in H; [|done..].
    change (Pathlib.stem pb +:+ "_variance")
      with (Pathlib.stem pb +:+ "_var" +:+ "iance") in H.
    rewrite <- (app_assoc_str _ "_var" "iance") in H.
    by apply app_same_length_tail in H as [_ ?].
  - rewrite He, Hv in H.
    apply (tagged_names_agree pa pb "_entropy" "_variance") in H; [|done..].
    change (Pathlib.stem pb +:+ "_variance")
      with (Pathlib.stem pb +:+ "_" +:+ "variance") in H.
    rewrite <- (app_assoc_str _ "_" "variance") in H.
    by apply app_same_length_tail in H as [_ ?].
  - rewrite Hd, Hv in H.
    destruct (decide (Pathlib.suffixes pb = [])) as [Hb|Hb].
    + rewrite Hb in H. simpl PyStr.join in H.
      apply (f_equal (PyStr.endswith PyStr.dot)) in H.
      change (Pathlib.stem pa +:+ "_dice.npy")
        with (Pathlib.stem pa +:+ "_dice." +:+ "npy") in H.
      rewrite <- (app_assoc_str _ "_dice." "npy") in H.
      rewrite endswith_app_free in H by done.
      change (Pathlib.stem pb +:+ "_variance." +:+ "")
        with (Pathlib.stem pb +:+ "_variance" +:+ ".") in H.
      rewrite <- (app_assoc_str _ "_variance" ".") in H.
      by rewrite endswith_snoc in H.
    + destruct (suffixed_profile pb Hb)
        as (k & R & s & _ & _ & _ & _ & HR & Hs & _).
      change (Pathlib.stem pb +:+ "_variance." +:+
              PyStr.join "." (Pathlib.suffixes pb))
        with (Pathlib.stem pb +:+ "_variance" +:+ "." +:+
              PyStr.join "." (Pathlib.suffixes pb)) in H.
      rewrite HR in H.
      assert ((Pathlib.stem pa +:+ "_dice") +:+ String PyStr.dot "npy"
              = (Pathlib.stem pb +:+ "_variance" +:+ R +:+ ".")
                +:+ String PyStr.dot s) as H'.
      { rewrite !app_assoc_str. exact H. }
      pose proof (f_equal (PyStr.count PyStr.dot) H') as Hc.
      rewrite (count_app _ _ (String PyStr.dot "npy")) in Hc.
      rewrite (count_app _ _ (String PyStr.dot s)) in Hc.
      apply count_free in Hs. simpl in Hc. rewrite Hs in Hc.
      apply app_same_count_head in H'; [|lia].
      change (Pathlib.stem pa +:+ "_dice")
        with (Pathlib.stem pa +:+ "_dic" +:+ "e") in H'.
      rewrite <- (app_assoc_str _ "_dic" "e") in H'.
      assert (Pathlib.stem pb +:+ "_variance" +:+ R +:+ "."
              = (Pathlib.stem pb +:+ "_variance" +:+ R) +:+ ".") as E
        by (by rewrite !app_assoc_str).
      rewrite E in H'. by apply app_same_length_tail in H' as [_ ?].
Qed.

(** The four targets of one input are pairwise different files. *)
Lemma out_paths_pairwise volume :
  let o := derive_paths volume in
  Pathlib.str (meanPath o) <> Pathlib.str (variancePath o) /\
  Pathlib.str (meanPath o) <> Pathlib.str (entropyPath o) /\
  Pathlib.str (meanPath o) <> Pathlib.str (dicePath o) /\
  Pathlib.str (variancePath o) <> Pathlib.str (entropyPath o) /\
  Pathlib.str (variancePath o) <> Pathlib.str (dicePath o) /\
  Pathlib.str (entropyPath o) <> Pathlib.str (dicePath o).
Proof.
  intros o. subst o. rewrite derive_paths_shape. simpl.
  repeat split; intros H; apply str_snoc_inj, String.app_inj in H;
    simpl in H; discriminate.
Qed.

(** ** The sample metric stays in the unit interval *)

Lemma sample_both_le u v :
  (Sample.count (Sample.both u v) <= Sample.count u)%nat /\
  (Sample.count (Sample.both u v) <= Sample.count v)%nat.
Proof.
  unfold Sample.count. revert v.
  induction u as [|a u IH]; intros [|b v]; simpl; try lia.
  destruct (IH v) as [H1 H2]. destruct a, b; simpl; lia.
Qed.

Lemma sample_dice_in_unit u v d :
  Sample.dice_numpy u v = inr d -> in_unit d.
Proof.
  unfold Sample.dice_numpy.
  destruct (sample_both_le u v) as [H1 H2].
  destruct (Sample.count u + Sample.count v)%nat as [|n] eqn:E;
    intros [= <-]; simpl.
  - split; by vm_compute.
  - unfold Qle. simpl. rewrite Zpos_P_of_succ_nat. split; lia.
Qed.

Section ValidateFacts.

Context {Volume Mask Mapping Predictor Normalizer : Type}.
Variable nib_load : gmap string (FileData Volume) -> string -> result Volume.
Variable read_mapping :
  gmap string (FileData Volume) -> string -> result Mapping.
Variable _predict :
  Volume -> Predictor -> Z * Z * Z -> bool -> bool -> bool -> Z ->
  Normalizer -> Z -> result (list Volume).
Variable replace : Volume -> Mapping -> result Volume.
Variable np_equal : Volume -> nat -> Mask.
Variable dice_numpy : Mask -> Mask -> result npfloat.
Variable np_mean : list npfloat -> npfloat.
Variable float_str : npfloat -> string.
Variable nib_save_refuses : Volume -> string -> option exn.
Variable np_save_refuses : string -> option exn.

Local Abbreviation validate1 :=
  (validate_from_filepath nib_load read_mapping _predict replace np_equal
                          dice_numpy).
Local Abbreviation pass :=
  (iteration nib_load read_mapping _predict replace np_equal dice_numpy
             nib_save_refuses).
Local Abbreviation passes :=
  (loop nib_load read_mapping _predict replace np_equal dice_numpy
        nib_save_refuses).
Local Abbreviation batch :=
  (validate_from_filepaths nib_load read_mapping _predict replace np_equal
                           dice_numpy np_mean float_str nib_save_refuses
                           np_save_refuses).
Local Abbreviation overlap P y i := (dice_numpy (np_equal P i) (np_equal y i)).

Implicit Types (a : Args Predictor Normalizer) (w : World Volume)
         (fs : gmap string (FileData Volume)) (dice : list npfloat)
         (outputs : list Volume).

(** *** The Dice loop *)

Lemma dice_loop_spec P y k : forall start dice dice',
  (start + k <= length dice)%nat ->
  dice_loop np_equal dice_numpy P y (seq start k) dice = inr dice' ->
  length dice' = length dice /\
  (forall i, (start <= i < start + k)%nat ->
             exists d, overlap P y i = inr d /\ dice' !! i = Some d) /\
  (forall i, (i < start)%nat -> dice' !! i = dice !! i).
Proof.
  induction k as [|k IH]; intros start dice dice' Hlen H; simpl in H.
  - injection H as <-. repeat split; try done. intros i Hi; lia.
  - destruct (overlap P y start) as [e|d] eqn:Hd; simpl in H; [done|].
    apply IH in H as (Hl & Hin & Hout); [|rewrite length_insert; lia].
    rewrite length_insert in Hl. repeat split; [done| |].
    + intros i Hi. destruct (decide (i = start)) as [->|Hne].
      * exists d. split; [done|]. rewrite Hout by lia.
        apply list_lookup_insert_eq. lia.
      * apply Hin. lia.
    + intros i Hi. rewrite Hout by lia.
      apply list_lookup_insert_ne. lia.
Qed.

(** The loop never fails when the metric does not. *)
Lemma dice_loop_total P y classes : forall dice,
  (forall i, exists d, overlap P y i = inr d) ->
  exists dice', dice_loop np_equal dice_numpy P y classes dice = inr dice'.
Proof.
  induction classes as [|i rest IH]; intros dice Hm; simpl; [by eexists|].
  destruct (Hm i) as [d ->]. simpl. by apply IH.
Qed.

(** *** What a successful call went through *)

Lemma validate_ok_inv fs filepath a outputs dice :
  validate1 fs filepath a = inr (outputs, dice) ->
  exists p f0 img f1 G P mapping y zeros,
    as_path filepath = inr p /\ is_file fs p = true /\
    getitem filepath 0 = inr f0 /\ nib_load fs f0 = inr img /\
    getitem filepath 1 = inr f1 /\ nib_load fs f1 = inr G /\
    _predict img (predictor a) (block_shape a) (returnVariance a)
             (returnEntropy a) (returnArrayFromImages a) (n_samples a)
             (normalizer a) (batch_size a) = inr outputs /\
    tuple_get outputs 0 = inr P /\
    read_mapping fs (mapping_y a) = inr mapping /\
    replace G mapping = inr y /\
    np_zeros (n_classes a) = inr zeros /\
    dice_loop np_equal dice_numpy P y (seq 0 (Z.to_nat (n_classes a)))
              zeros = inr dice.
Proof.
  unfold validate_from_filepath. intros H.
  destruct (as_path filepath) as [|p] eqn:E1; simpl in H; [done|].
  destruct (is_file fs p) eqn:E2; simpl in H;
    [|by destruct (getitem filepath 0)].
  destruct (getitem filepath 0) as [|f0] eqn:E3; simpl in H; [done|].
  destruct (nib_load fs f0) as [|img] eqn:E4; simpl in H; [done|].
  destruct (getitem filepath 1) as [|f1] eqn:E5; simpl in H; [done|].
  destruct (nib_load fs f1) as [|G] eqn:E6; simpl in H; [done|].
  destruct (_predict _ _ _ _ _ _ _ _ _) as [|outs] eqn:E7; simpl in H;
    [done|].
  destruct (tuple_get outs 0) as [|P] eqn:E8; simpl in H; [done|].
  destruct (read_mapping fs (mapping_y a)) as [|m] eqn:E9; simpl in H;
    [done|].
  destruct (replace G m) as [|y] eqn:E10; simpl in H; [done|].
  destruct (np_zeros (n_classes a)) as [|z] eqn:E11; simpl in H; [done|].
  destruct (dice_loop _ _ _ _ _ _) as [|dc] eqn:E12; simpl in H; [done|].
  injection H as <- <-.
  exists p, f0, img, f1, G, P, m, y, z. repeat split; done.
Qed.

Lemma np_zeros_inv n zeros :
  np_zeros n = inr zeros ->
  (0 <= n)%Z /\ zeros = replicate (Z.to_nat n) (Finite 0).
Proof.
  unfold np_zeros. destruct (Z.ltb_spec n 0); [done|].
  intros [= <-]. done.
Qed.

(** A call returns once the check of line 57 passes, the
    collaborators answer and the class count is not negative. *)
Lemma validate_returns fs filepath a p f0 img f1 G outputs P mapping y :
  as_path filepath = inr p -> is_file fs p = true ->
  getitem filepath 0 = inr f0 -> nib_load fs f0 = inr img ->
  getitem filepath 1 = inr f1 -> nib_load fs f1 = inr G ->
  _predict img (predictor a) (block_shape a) (returnVariance a)
           (returnEntropy a) (returnArrayFromImages a) (n_samples a)
           (normalizer a) (batch_size a) = inr outputs ->
  tuple_get outputs 0 = inr P ->
  read_mapping fs (mapping_y a) = inr mapping ->
  replace G mapping = inr y ->
  (0 <= n_classes a)%Z ->
  (forall i, exists d, overlap P y i = inr d) ->
  exists dice, validate1 fs filepath a = inr (outputs, dice).
Proof.
  intros Hp Hf Hf0 Hi Hf1 HG Ho HP Hm Hy Hn Hd.
  unfold validate_from_filepath.
  rewrite Hp. simpl. rewrite Hf. simpl. rewrite Hf0. simpl.
  rewrite Hi. simpl. rewrite Hf1. simpl. rewrite HG. simpl.
  rewrite Ho. simpl. rewrite HP. simpl. rewrite Hm. simpl.
  rewrite Hy. simpl. unfold np_zeros.
  destruct (Z.ltb_spec (n_classes a) 0); [lia|]. simpl.
  destruct (dice_loop_total P y (seq 0 (Z.to_nat (n_classes a)))
              (replicate (Z.to_nat (n_classes a)) (Finite 0)) Hd)
    as [dice ->].
  by exists dice.
Qed.

(** C1: after a call of validate_from_filepath that returns, the ground
    truth it loaded from filepath[1] has been remapped through the
    mapping read from mapping_y, and for every class index i below
    n_classes the entry i of the Dice vector is what dice_numpy gives
    on the masks np.equal(outputs[0], i) and np.equal(remapped, i). *)
Theorem dice_entries_are_overlaps fs filepath a outputs dice :
  validate1 fs filepath a = inr (outputs, dice) ->
  exists f1 G mapping y P,
    getitem filepath 1 = inr f1 /\ nib_load fs f1 = inr G /\
    read_mapping fs (mapping_y a) = inr mapping /\
    replace G mapping = inr y /\
    tuple_get outputs 0 = inr P /\
    forall i : nat, (Z.of_nat i < n_classes a)%Z ->
      exists d, overlap P y i = inr d /\ dice !! i = Some d.
Proof.
  intros H. apply validate_ok_inv in H
    as (p & f0 & img & f1 & G & P & m & y & z & _ & _ & _ & _ & Hf1 & HG
        & _ & HP & Hm & Hy & Hz & Hl).
  exists f1, G, m, y, P. repeat split; try done.
  apply np_zeros_inv in Hz as [Hn ->].
  apply dice_loop_spec in Hl as (_ & Hin & _);
    [|rewrite length_replicate; lia].
  intros i Hi. apply Hin. lia.
Qed.

(** C8: provided dice_numpy only returns floats in [0,1], the Dice
    vector a call returns has exactly n_classes entries, every entry
    lies in [0,1], and the vector is the one the loop fills starting
    from np.zeros(n_classes) in this very call. *)
Theorem dice_vector_length_and_range fs filepath a outputs dice :
  (forall u v d, dice_numpy u v = inr d -> in_unit d) ->
  validate1 fs filepath a = inr (outputs, dice) ->
  Z.of_nat (length dice) = n_classes a /\
  Forall in_unit dice /\
  exists P y,
    dice_loop np_equal dice_numpy P y (seq 0 (length dice))
              (replicate (length dice) (Finite 0)) = inr dice.
Proof.
  intros Hunit H. apply validate_ok_inv in H
    as (p & f0 & img & f1 & G & P & m & y & z & _ & _ & _ & _ & _ & _
        & _ & _ & _ & _ & Hz & Hl).
  apply np_zeros_inv in Hz as [Hn ->].
  pose proof Hl as Hl'.
  apply dice_loop_spec in Hl' as (Hlen & Hin & _);
    [|rewrite length_replicate; lia].
  rewrite length_replicate in Hlen.
  split; [lia|]. split.
  - apply Forall_lookup. intros i x Hx.
    destruct (Hin i) as (d & Hd & Hi).
    { apply lookup_lt_Some in Hx. lia. }
    rewrite Hx in Hi. injection Hi as ->. by apply Hunit in Hd.
  - exists P, y. by rewrite Hlen.
Qed.


(** C6: on the tuple the docstring asks for, the existence check of
    line 57 raises TypeError, whether the volume exists or not. *)
Theorem validate_tuple_type_error fs items a :
  validate_from_filepath nib_load read_mapping _predict replace np_equal
                         dice_numpy fs (Tuple items) a
  = inl TypeError.
Proof. reflexivity. Qed.

(** C10: on an empty sequence the loop binds nothing, the first read
    of filepath after it raises UnboundLocalError, and the store and
    the trace are as before the call. *)
Theorem empty_batch_unbound a w :
  validate_from_filepaths nib_load read_mapping _predict replace np_equal
                          dice_numpy np_mean float_str nib_save_refuses
                          np_save_refuses [] a w
  = (inl (UnboundLocalError "filepath"), w).
Proof. reflexivity. Qed.

(** *** One pass of the loop *)

Lemma includeVariance_spec a :
  includeVariance a = true <->
  (1 < n_samples a)%Z /\ returnVariance a = true.
Proof.
  unfold includeVariance. rewrite andb_true_iff, Z.ltb_lt. done.
Qed.

Lemma nib_save_inv v p w r w' :
  nib_save nib_save_refuses v p w = (r, w') ->
  (exists e, r = inl e /\ w' = w) \/
  (nib_save_refuses v (Pathlib.str p) = None /\ r = inr () /\
   files w' = <[Pathlib.str p := ImgFile v]> (files w) /\
   trace w' = trace w ++ [NibSave (Pathlib.str p) v]).
Proof.
  unfold nib_save. destruct (nib_save_refuses _ _) as [e|];
    intros [= <- <-]; [left; by exists e | right; done].
Qed.

(** The body of a pass, with the monad unfolded. *)
Lemma pass_unfold a filepath w :
  pass a filepath w =
  match validate1 (files w) filepath a with
  | inl e => (inl e, w)
  | inr (outputs, dice) =>
      match getitem filepath 0 with
      | inl e => (inl e, w)
      | inr f0 =>
          let o := derive_paths f0 in
          if is_file (files w) (meanPath o)
             || is_file (files w) (variancePath o)
             || is_file (files w) (entropyPath o)
          then (inl (PyException (already_exists_msg o)), w)
          else
            match save_outputs nib_save_refuses a outputs o w with
            | (inl e, w') => (inl e, w')
            | (inr _, w') => (inr (mkLocals filepath dice (dicePath o)), w')
            end
      end
  end.
Proof.
  unfold iteration, bind, reading, lift, raise, ret.
  destruct (validate1 _ _ _) as [|[outputs dice]]; [done|].
  destruct (getitem filepath 0); [done|]. simpl.
  destruct (_ || _); [done|].
  by destruct (save_outputs _ _ _ _ _) as [[|] ?].
Qed.

Ltac save_cases H :=
  repeat match type of H with
         | context [tuple_get ?l ?i] =>
             let E := fresh "Hget" in
             destruct (tuple_get l i) eqn:E; simpl in H
         | context [nib_save nib_save_refuses ?v ?p ?w] =>
             let E := fresh "Hsave" in
             destruct (nib_save nib_save_refuses v p w) as [[?|[]] ?] eqn:E;
             apply nib_save_inv in E as [(? & ? & ?)|(? & ? & ? & ?)];
             simplify_eq; try simpl in H
         end.

(** What a pass that went through has saved, when images were asked
    for. *)
Lemma save_outputs_ok a outputs o w w' :
  returnArrayFromImages a = false ->
  save_outputs nib_save_refuses a outputs o w = (inr (), w') ->
  exists o0 rest,
    tuple_get outputs 0 = inr o0 /\
    trace w' = trace w ++ NibSave (Pathlib.str (meanPath o)) o0 :: rest /\
    (includeVariance a = true ->
     returnEntropy a = true ->
     exists o1 o2,
       tuple_get outputs 1 = inr o1 /\ tuple_get outputs 2 = inr o2 /\
       rest = [NibSave (Pathlib.str (variancePath o)) o1;
               NibSave (Pathlib.str (entropyPath o)) o2]) /\
    (includeVariance a = true ->
     returnEntropy a = false ->
     exists o1,
       tuple_get outputs 1 = inr o1 /\
       rest = [NibSave (Pathlib.str (variancePath o)) o1]) /\
    (includeVariance a = false ->
     exists o1,
       tuple_get outputs 1 = inr o1 /\
       rest = [NibSave (Pathlib.str (entropyPath o)) o1]).
Proof.
  intros Harr. unfold save_outputs, bind, lift, ret. rewrite Harr. simpl.
  destruct (includeVariance a) eqn:Hv, (returnEntropy a) eqn:He; simpl;
    intros H; save_cases H; simplify_eq;
    eexists _, _; (split; [done|]);
    (split; [repeat match goal with
                    | E : trace _ = _ |- _ => rewrite E; clear E
                    end; rewrite <- ?app_assoc; simpl; reflexivity|]);
    repeat split; intros; try done; eauto.
Qed.

Ltac trace_done :=
  repeat match goal with
         | E : trace _ = _ |- _ => rewrite E; clear E
         end;
  rewrite <- ?app_assoc; simpl;
  first [ eexists; split; [reflexivity|]
        | exists []; split; [by rewrite app_nil_r|] ];
  repeat (apply Forall_cons; split;
          [eexists; first [ left; reflexivity
                          | right; left; reflexivity
                          | right; right; split; reflexivity ]|]);
  by apply Forall_nil.

(** Whatever its outcome, [save_outputs] only appends saves to the
    three targets, and to the variance path only under
    [includeVariance]. *)
Lemma save_outputs_trace a outputs o w r w' :
  save_outputs nib_save_refuses a outputs o w = (r, w') ->
  exists new,
    trace w' = trace w ++ new /\
    Forall (fun e => exists v,
              e = NibSave (Pathlib.str (meanPath o)) v \/
              e = NibSave (Pathlib.str (entropyPath o)) v \/
              (includeVariance a = true /\
               e = NibSave (Pathlib.str (variancePath o)) v)) new.
Proof.
  unfold save_outputs, bind, lift, ret.
  destruct (returnArrayFromImages a), (includeVariance a) eqn:Hv,
    (returnEntropy a); simpl; intros H; save_cases H; simplify_eq;
    trace_done.
Qed.

Lemma pass_saves a filepath w r w' :
  pass a filepath w = (r, w') ->
  exists new,
    trace w' = trace w ++ new /\ Forall (pass_event a filepath) new.
Proof.
  rewrite pass_unfold.
  destruct (validate1 _ _ _) as [e|[outputs dice]];
    [intros [= <- <-]; exists []; by rewrite app_nil_r|].
  destruct (getitem filepath 0) as [e|f0] eqn:Hf0;
    [intros [= <- <-]; exists []; by rewrite app_nil_r|].
  simpl. destruct (_ || _);
    [intros [= <- <-]; exists []; by rewrite app_nil_r|].
  destruct (save_outputs _ _ _ _ _) as [r1 w1] eqn:Hs.
  apply save_outputs_trace in Hs as (new & Ht & Hall).
  intros H. assert (w' = w1) as -> by (by destruct r1; simplify_eq).
  exists new. split; [done|].
  eapply Forall_impl; [exact Hall|]. intros e (v & He).
  exists f0, v. split; [done|]. exact He.
Qed.

(** A pass that returns leaves its input, its Dice vector and its
    dice path bound. *)
Lemma pass_ok_inv a filepath w l w' :
  pass a filepath w = (inr l, w') ->
  exists outputs dice f0,
    validate1 (files w) filepath a = inr (outputs, dice) /\
    getitem filepath 0 = inr f0 /\
    is_file (files w) (meanPath (derive_paths f0))
    || is_file (files w) (variancePath (derive_paths f0))
    || is_file (files w) (entropyPath (derive_paths f0)) = false /\
    save_outputs nib_save_refuses a outputs (derive_paths f0) w
    = (inr (), w') /\
    l = mkLocals filepath dice (dicePath (derive_paths f0)).
Proof.
  rewrite pass_unfold.
  destruct (validate1 _ _ _) as [e|[outputs dice]]; [done|].
  destruct (getitem filepath 0) as [e|f0] eqn:Hf0; [done|].
  simpl. destruct (_ || _) eqn:Ht; [done|].
  destruct (save_outputs _ _ _ _ _) as [[e|[]] w1] eqn:Hs; [done|].
  intros [= <- <-]. by exists outputs, dice, f0.
Qed.

(** *** The loop *)

Lemma passes_app a l1 l2 : forall locals w,
  passes a (l1 ++ l2) locals w =
  match passes a l1 locals w with
  | (inl e, w1) => (inl e, w1)
  | (inr locals', w1) => passes a l2 locals' w1
  end.
Proof.
  induction l1 as [|fp l1 IH]; intros locals w; simpl; [done|].
  unfold bind. destruct (pass a fp w) as [[e|l] w1]; [done|]. apply IH.
Qed.

Lemma passes_saves a filepaths : forall locals w r w',
  passes a filepaths locals w = (r, w') ->
  exists new,
    trace w' = trace w ++ new /\
    Forall (fun e => exists fp, fp ∈ filepaths /\ pass_event a fp e) new.
Proof.
  induction filepaths as [|fp rest IH]; intros locals w r w'; simpl.
  - intros [= <- <-]. exists []. by rewrite app_nil_r.
  - unfold bind. destruct (pass a fp w) as [r1 w1] eqn:Hp.
    apply pass_saves in Hp as (new1 & Ht1 & H1).
    assert (Forall (fun e => exists fp0, fp0 ∈ fp :: rest /\
                                         pass_event a fp0 e) new1) as H1'.
    { eapply Forall_impl; [exact H1|]. intros e He. exists fp.
      split; [apply list_elem_of_here | done]. }
    destruct r1 as [e|l].
    + intros [= <- <-]. by exists new1.
    + intros H. apply IH in H as (new2 & Ht2 & H2).
      exists (new1 ++ new2). split.
      * by rewrite Ht2, Ht1, app_assoc.
      * apply Forall_app. split; [done|].
        eapply Forall_impl; [exact H2|]. intros e (fp0 & Hin & He).
        exists fp0. split; [by apply list_elem_of_further | done].
Qed.

(** What is bound after the loop was bound by a pass over one of the
    inputs, unless the loop had no input. *)
Lemma passes_locals a filepaths : forall locals w locals' w',
  passes a filepaths locals w = (inr locals', w') ->
  (filepaths = [] /\ locals' = locals) \/
  exists fp f0 dice,
    fp ∈ filepaths /\ getitem fp 0 = inr f0 /\
    locals' = Some (mkLocals fp dice (dicePath (derive_paths f0))).
Proof.
  induction filepaths as [|fp rest IH]; intros locals w locals' w'; simpl.
  - intros [= <- <-]. by left.
  - unfold bind. destruct (pass a fp w) as [[e|l] w1] eqn:Hp; [done|].
    apply pass_ok_inv in Hp as (outs & dice & f0 & _ & Hf0 & _ & _ & ->).
    intros H. right. apply IH in H as [[-> ->]|(fp' & f0' & d' & Hin & ? & ?)].
    + exists fp, f0, dice. split; [apply list_elem_of_here | done].
    + exists fp', f0', d'. split; [by apply list_elem_of_further | done].
Qed.

(** *** The summary after the loop *)

Lemma summary_ok_inv l w w' :
  summary np_mean float_str np_save_refuses (Some l) w = (inr (), w') ->
  exists f0,
    getitem (loc_filepath l) 0 = inr f0 /\
    trace w' =
    trace w ++ [Print f0;
                Print ("Dice: " +:+ float_str (np_mean (loc_dice l)));
                NpSave (Pathlib.str (loc_dicePath l)) (loc_dice l)].
Proof.
  unfold summary, bind, lift, print, np_save.
  destruct (getitem (loc_filepath l) 0) as [e|f0]; [done|]. simpl.
  destruct (np_save_refuses _); [done|].
  intros [= <-]. exists f0. split; [done|]. simpl.
  by rewrite <- !app_assoc.
Qed.

Lemma summary_trace locals w r w' :
  summary np_mean float_str np_save_refuses locals w = (r, w') ->
  exists new,
    trace w' = trace w ++ new /\
    Forall (fun e => forall p, event_path e = Some p ->
              exists l, locals = Some l /\
                        p = Pathlib.str (loc_dicePath l)) new.
Proof.
  destruct locals as [l|]; simpl;
    [|intros [= <- <-]; exists []; by rewrite app_nil_r].
  unfold bind, lift, print, np_save.
  destruct (getitem (loc_filepath l) 0) as [e|f0]; simpl;
    [intros [= <- <-]; exists []; by rewrite app_nil_r|].
  destruct (np_save_refuses _); intros [= <- <-]; simpl;
    rewrite <- !app_assoc; simpl; eexists; (split; [reflexivity|]);
    repeat (apply Forall_cons; split;
            [simpl; intros p Hp; simplify_eq; by exists l|]);
    by apply Forall_nil.
Qed.

(** *** The claims about the batch *)

(** C3: in a pass that completes with returnArrayFromImages false,
    the mean is saved first; a volume goes to the variance path if and
    only if n_samples > 1 and returnVariance; with that and
    returnEntropy, outputs[1] goes to the variance path and outputs[2]
    to the entropy path; with that alone, only outputs[1] to the
    variance path; and otherwise outputs[1] goes to the entropy path,
    whether or not entropy was asked for. *)
Theorem secondary_volume_selection a filepath w l w' :
  returnArrayFromImages a = false ->
  pass a filepath w = (inr l, w') ->
  exists outputs dice f0 o0 rest,
    validate1 (files w) filepath a = inr (outputs, dice) /\
    getitem filepath 0 = inr f0 /\
    tuple_get outputs 0 = inr o0 /\
    let o := derive_paths f0 in
    trace w' = trace w ++ NibSave (Pathlib.str (meanPath o)) o0 :: rest /\
    ((exists v, NibSave (Pathlib.str (variancePath o)) v
                ∈ NibSave (Pathlib.str (meanPath o)) o0 :: rest) <->
     (1 < n_samples a)%Z /\ returnVariance a = true) /\
    (includeVariance a = true -> returnEntropy a = true ->
     exists o1 o2,
       tuple_get outputs 1 = inr o1 /\ tuple_get outputs 2 = inr o2 /\
       rest = [NibSave (Pathlib.str (variancePath o)) o1;
               NibSave (Pathlib.str (entropyPath o)) o2]) /\
    (includeVariance a = true -> returnEntropy a = false ->
     exists o1,
       tuple_get outputs 1 = inr o1 /\
       rest = [NibSave (Pathlib.str (variancePath o)) o1]) /\
    (includeVariance a = false ->
     exists o1,
       tuple_get outputs 1 = inr o1 /\
       rest = [NibSave (Pathlib.str (entropyPath o)) o1]).
Proof.
  intros Harr Hp.
  apply pass_ok_inv in Hp as (outputs & dice & f0 & Hv & Hf0 & _ & Hs & _).
  apply (save_outputs_ok _ _ _ _ _ Harr) in Hs
    as (o0 & rest & Ho0 & Ht & Hboth & Hvar & Hent).
  exists outputs, dice, f0, o0, rest.
  repeat (split; [done|]). split; [|done].
  rewrite <- includeVariance_spec.
  destruct (out_paths_distinct f0) as (Hmv & Hev & _ & _).
  split.
  - intros [v Hin]. destruct (includeVariance a) eqn:Hi; [done|].
    destruct (Hent eq_refl) as (o1 & _ & ->).
    apply elem_of_cons in Hin as [[= Hp _]|Hin]; [by symmetry in Hp|].
    apply elem_of_cons in Hin as [[= Hp _]|Hin]; [by symmetry in Hp|].
    by apply elem_of_nil in Hin.
  - intros Hi. destruct (returnEntropy a) eqn:He.
    + destruct (Hboth Hi eq_refl) as (o1 & o2 & _ & _ & ->).
      exists o1. apply list_elem_of_further, list_elem_of_here.
    + destruct (Hvar Hi eq_refl) as (o1 & _ & ->).
      exists o1. apply list_elem_of_further, list_elem_of_here.
Qed.

(** C5: in a pass whose validation returned, if the mean, the variance
    or the entropy target already is a file, the pass raises the
    "already exists" exception and leaves the store and the trace as
    they were; in a batch this happens at the first such input, after
    the earlier passes have written their files. *)
Theorem overwrite_guard a filepath w outputs dice f0 :
  validate1 (files w) filepath a = inr (outputs, dice) ->
  getitem filepath 0 = inr f0 ->
  is_file (files w) (meanPath (derive_paths f0))
  || is_file (files w) (variancePath (derive_paths f0))
  || is_file (files w) (entropyPath (derive_paths f0)) = true ->
  pass a filepath w
  = (inl (PyException (already_exists_msg (derive_paths f0))), w) /\
  forall earlier later w0 locals,
    passes a earlier None w0 = (inr locals, w) ->
    batch (earlier ++ filepath :: later) a w0
    = (inl (PyException (already_exists_msg (derive_paths f0))), w).
Proof.
  intros Hv Hf0 Ht.
  assert (pass a filepath w
          = (inl (PyException (already_exists_msg (derive_paths f0))), w))
    as Hp.
  { rewrite pass_unfold, Hv, Hf0. cbv beta iota zeta. by rewrite Ht. }
  split; [done|]. intros earlier later w0 locals He.
  unfold validate_from_filepaths, bind.
  rewrite passes_app, He. simpl. unfold bind. by rewrite Hp.
Qed.

(** C9: with returnArrayFromImages false and the variance not
    included, a pass whose predictor returned the mean alone saves the
    mean and then raises IndexError at outputs[1]. *)
Theorem fallthrough_index_error a filepath w dice f0 o0 :
  returnArrayFromImages a = false ->
  includeVariance a = false ->
  validate1 (files w) filepath a = inr ([o0], dice) ->
  getitem filepath 0 = inr f0 ->
  is_file (files w) (meanPath (derive_paths f0))
  || is_file (files w) (variancePath (derive_paths f0))
  || is_file (files w) (entropyPath (derive_paths f0)) = false ->
  nib_save_refuses o0 (Pathlib.str (meanPath (derive_paths f0))) = None ->
  pass a filepath w =
  (inl IndexError,
   mkWorld (<[Pathlib.str (meanPath (derive_paths f0)) := ImgFile o0]>
              (files w))
           (trace w ++ [NibSave (Pathlib.str (meanPath (derive_paths f0)))
                                o0])).
Proof.
  intros Harr Hi Hv Hf0 Ht Hsave.
  rewrite pass_unfold, Hv, Hf0. cbv beta iota zeta. rewrite Ht.
  unfold save_outputs, bind, lift.
  change (tuple_get [o0] 0) with (inr o0 : result Volume).
  change (tuple_get [o0] 1) with (inl IndexError : result Volume).
  cbv beta iota. unfold nib_save at 1. rewrite Hsave, Harr, Hi.
  reflexivity.
Qed.

Lemma pass_event_is_save a filepath (e : Event Volume) :
  pass_event a filepath e -> is_nib_save e.
Proof. intros (f0 & v & _ & [->|[->|[_ ->]]]); exact I. Qed.

(** C7: in a batch run with n_samples = 1, whatever returnVariance
    is and however the run ends, every file written is the mean, the
    entropy or the dice target of one of the inputs, and no file written
    is the variance target that any volume name would give. *)
Theorem single_sample_never_writes_variance filepaths a w r w' :
  n_samples a = 1%Z ->
  batch filepaths a w = (r, w') ->
  exists new,
    trace w' = trace w ++ new /\
    Forall (fun e => forall p, event_path e = Some p ->
              (exists fp f0,
                 fp ∈ filepaths /\ getitem fp 0 = inr f0 /\
                 let o := derive_paths f0 in
                 p = Pathlib.str (meanPath o) \/
                 p = Pathlib.str (entropyPath o) \/
                 p = Pathlib.str (dicePath o)) /\
              forall volume,
                p <> Pathlib.str (variancePath (derive_paths volume))) new.
Proof.
  intros Hn. assert (includeVariance a = false) as Hi.
  { unfold includeVariance. by rewrite Hn. }
  unfold validate_from_filepaths, bind.
  destruct (passes a filepaths None w) as [r1 w1] eqn:Hl.
  pose proof (passes_saves _ _ _ _ _ _ Hl) as (new1 & Ht1 & H1).
  assert (Forall (fun e => forall p, event_path e = Some p ->
              (exists fp f0,
                 fp ∈ filepaths /\ getitem fp 0 = inr f0 /\
                 let o := derive_paths f0 in
                 p = Pathlib.str (meanPath o) \/
                 p = Pathlib.str (entropyPath o) \/
                 p = Pathlib.str (dicePath o)) /\
              forall volume,
                p <> Pathlib.str (variancePath (derive_paths volume)))
            new1) as H1'.
  { eapply Forall_impl; [exact H1|].
    intros e (fp & Hin & f0 & v & Hf0 & He) p Hp.
    destruct He as [->|[->|[Hc _]]]; [| |congruence];
      injection Hp as <-.
    - split; [exists fp, f0; simpl; auto|].
      intros volume. apply (variance_target_apart f0 volume).
    - split; [exists fp, f0; simpl; auto|].
      intros volume. apply (variance_target_apart f0 volume). }
  destruct r1 as [e|locals].
  - intros [= <- <-]. by exists new1.
  - intros Hs. apply summary_trace in Hs as (new2 & Ht2 & H2).
    exists (new1 ++ new2). split; [by rewrite Ht2, Ht1, app_assoc|].
    apply Forall_app. split; [done|].
    eapply Forall_impl; [exact H2|].
    intros e He p Hp. destruct (He p Hp) as (l & -> & ->).
    apply passes_locals in Hl
      as [[_ [=]]|(fp & f0 & dice & Hin & Hf0 & [= ->])].
    split; [exists fp, f0; simpl; auto|].
    intros volume. apply (variance_target_apart f0 volume).
Qed.

(** C4: when a batch over a non-empty sequence returns, the passes
    have only saved volumes; after them come, once, the print of
    filepath[0] of the last input, the print of the mean of the Dice
    vector of the last input, and the save of that vector to the dice
    path of the last input, and nothing else. *)
Theorem summary_reports_last_pass earlier last a w w' :
  batch (earlier ++ [last]) a w = (inr (), w') ->
  exists locals w1 w2 outputs dice f0 saves,
    passes a earlier None w = (inr locals, w1) /\
    validate1 (files w1) last a = inr (outputs, dice) /\
    getitem last 0 = inr f0 /\
    passes a (earlier ++ [last]) None w
    = (inr (Some (mkLocals last dice (dicePath (derive_paths f0)))), w2) /\
    trace w2 = trace w ++ saves /\
    Forall is_nib_save saves /\
    trace w' =
    trace w2 ++ [Print f0;
                 Print ("Dice: " +:+ float_str (np_mean dice));
                 NpSave (Pathlib.str (dicePath (derive_paths f0))) dice].
Proof.
  unfold validate_from_filepaths, bind.
  destruct (passes a (earlier ++ [last]) None w) as [[e|locals'] w2] eqn:Hl;
    [done|].
  intros Hs. pose proof Hl as Hl'. rewrite passes_app in Hl'.
  destruct (passes a earlier None w) as [[e|locals] w1] eqn:He; [done|].
  simpl in Hl'. unfold bind, ret in Hl'.
  destruct (pass a last w1) as [[e|l] w2'] eqn:Hp; [done|].
  injection Hl' as <- <-.
  apply pass_ok_inv in Hp as (outputs & dice & f0 & Hv & Hf0 & _ & _ & ->).
  apply summary_ok_inv in Hs as (f0' & Hf0' & Ht). simpl in Hf0', Ht.
  rewrite Hf0 in Hf0'. injection Hf0' as <-.
  apply passes_saves in Hl as (saves & Hsv & Hall).
  exists locals, w1, w2', outputs, dice, f0, saves.
  repeat (split; [done|]). split; [|done].
  eapply Forall_impl; [exact Hall|].
  intros e (fp & _ & He'). by eapply pass_event_is_save.
Qed.

(** *** More on validate_from_filepath *)

(** A ground truth that cannot be loaded surfaces as the loader's
    error, whatever the predictor would do: line 57 does not look at
    it. *)
Lemma ground_truth_error_surfaces fs filepath a p f0 img f1 e :
  as_path filepath = inr p -> is_file fs p = true ->
  getitem filepath 0 = inr f0 -> nib_load fs f0 = inr img ->
  getitem filepath 1 = inr f1 -> nib_load fs f1 = inl e ->
  validate_from_filepath nib_load read_mapping _predict replace np_equal
                         dice_numpy fs filepath a
  = inl e.
Proof.
  intros Hp Hf Hf0 Hi Hf1 HG. unfold validate_from_filepath.
  rewrite Hp. simpl. rewrite Hf. simpl. rewrite Hf0. simpl.
  rewrite Hi. simpl. rewrite Hf1. simpl. by rewrite HG.
Qed.

(** What a call returns as outputs is the tuple the predictor gave for
    the volume loaded from filepath[0], with the flags handed through
    unchanged, and that tuple has a first element. *)
Lemma outputs_are_the_predictors fs filepath a outputs dice :
  validate_from_filepath nib_load read_mapping _predict replace np_equal
                         dice_numpy fs filepath a
  = inr (outputs, dice) ->
  exists f0 img,
    getitem filepath 0 = inr f0 /\ nib_load fs f0 = inr img /\
    _predict img (predictor a) (block_shape a) (returnVariance a)
             (returnEntropy a) (returnArrayFromImages a) (n_samples a)
             (normalizer a) (batch_size a) = inr outputs /\
    outputs <> [].
Proof.
  intros H. apply validate_ok_inv in H
    as (p & f0 & img & f1 & G & P & m & y & z & _ & _ & Hf0 & Hi & _ & _
        & Ho & HP & _).
  exists f0, img. repeat (split; [done|]). by intros ->.
Qed.

(** A negative class count never yields a Dice vector. *)
Lemma negative_class_count_fails fs filepath a :
  (n_classes a < 0)%Z ->
  exists e,
    validate_from_filepath nib_load read_mapping _predict replace np_equal
                           dice_numpy fs filepath a
    = inl e.
Proof.
  intros Hn. destruct (validate1 fs filepath a) as [e|[outputs dice]] eqn:H;
    [by exists e|].
  apply validate_ok_inv in H
    as (p & f0 & img & f1 & G & P & m & y & z & _ & _ & _ & _ & _ & _
        & _ & _ & _ & _ & Hz & _).
  apply np_zeros_inv in Hz as [? _]. lia.
Qed.

(** The Dice loop stops at the first class on which the metric raises,
    and fails only so. *)
Lemma dice_loop_first_failure P y n zeros e :
  dice_loop np_equal dice_numpy P y (seq 0 n) zeros = inl e <->
  exists i, (i < n)%nat /\ overlap P y i = inl e /\
            forall j, (j < i)%nat -> exists d, overlap P y j = inr d.
Proof.
  assert (forall k start dice,
            dice_loop np_equal dice_numpy P y (seq start k) dice = inl e <->
            exists i, (start <= i < start + k)%nat /\ overlap P y i = inl e /\
                      forall j, (start <= j < i)%nat ->
                                exists d, overlap P y j = inr d) as Hgen.
  { induction k as [|k IH]; intros start dice; simpl.
    - split; [done|]. intros (i & Hi & _). lia.
    - destruct (overlap P y start) as [e'|d] eqn:Hd; simpl.
      + split.
        * intros [= ->]. exists start. split; [lia|]. split; [done|].
          intros j Hj. lia.
        * intros (i & Hi & He & Hbefore).
          destruct (decide (i = start)) as [->|Hne]; [congruence|].
          destruct (Hbefore start) as [d Hd']; [lia|]. congruence.
      + rewrite IH. split.
        * intros (i & Hi & He & Hbefore). exists i. split; [lia|].
          split; [done|]. intros j Hj.
          destruct (decide (j = start)) as [->|Hne]; [by exists d|].
          apply Hbefore. lia.
        * intros (i & Hi & He & Hbefore).
          destruct (decide (i = start)) as [->|Hne]; [congruence|].
          exists i. split; [lia|]. split; [done|].
          intros j Hj. apply Hbefore. lia. }
  rewrite Hgen. split; intros (i & Hi & He & Hb); exists i;
    (split; [lia|]); (split; [done|]); intros j Hj; apply Hb; lia.
Qed.

(** *** The file store across a batch *)

Lemma is_file_false fs (p : Pathlib.PurePath) q :
  is_file fs p = false -> is_Some (fs !! q) -> q <> Pathlib.str p.
Proof.
  unfold is_file. intros H Hq ->. by apply bool_decide_eq_false in H.
Qed.

Lemma is_file_true fs (p : Pathlib.PurePath) :
  is_Some (fs !! Pathlib.str p) -> is_file fs p = true.
Proof. intros H. unfold is_file. by apply bool_decide_eq_true. Qed.

Ltac store_done :=
  repeat match goal with
         | E : files _ = _ |- _ => rewrite E; clear E
         end;
  rewrite ?lookup_insert_ne by done; try done.

(** [save_outputs] touches the three targets only, and removes
    nothing. *)
Lemma save_outputs_store a outputs o w r w' :
  save_outputs nib_save_refuses a outputs o w = (r, w') ->
  (forall q, q <> Pathlib.str (meanPath o) ->
             q <> Pathlib.str (variancePath o) ->
             q <> Pathlib.str (entropyPath o) ->
             files w' !! q = files w !! q) /\
  (forall q, is_Some (files w !! q) -> is_Some (files w' !! q)).
Proof.
  unfold save_outputs, bind, lift, ret.
  destruct (returnArrayFromImages a), (includeVariance a),
    (returnEntropy a); simpl; intros H; save_cases H; simplify_eq;
    (split; [intros q ? ? ?; store_done
            |intros q Hq;
             repeat match goal with
                    | E : files _ = _ |- _ => rewrite E; clear E
                    end;
             rewrite ?lookup_insert_is_Some'; auto]).
Qed.

(** A pass leaves every file that existed before it as it was. *)
Lemma pass_store a filepath w r w' q :
  pass a filepath w = (r, w') ->
  is_Some (files w !! q) -> files w' !! q = files w !! q.
Proof.
  rewrite pass_unfold.
  destruct (validate1 _ _ _) as [e|[outputs dice]]; [by intros [= <- <-]|].
  destruct (getitem filepath 0) as [e|f0]; [by intros [= <- <-]|].
  cbv zeta. destruct (_ || _) eqn:Ht; [by intros [= <- <-]|].
  apply orb_false_iff in Ht as [Ht He].
  apply orb_false_iff in Ht as [Hm Hv].
  destruct (save_outputs _ _ _ _ _) as [r1 w1] eqn:Hs.
  apply save_outputs_store in Hs as [Hs _].
  intros H Hq. assert (w' = w1) as -> by (by destruct r1; simplify_eq).
  apply Hs; by eapply is_file_false.
Qed.

Lemma passes_store a filepaths : forall locals w r w' q,
  passes a filepaths locals w = (r, w') ->
  is_Some (files w !! q) -> files w' !! q = files w !! q.
Proof.
  induction filepaths as [|fp rest IH]; intros locals w r w' q; simpl.
  - by intros [= <- <-].
  - unfold bind. destruct (pass a fp w) as [[e|l] w1] eqn:Hp.
    + intros [= <- <-] Hq. by eapply pass_store.
    + intros H Hq. pose proof (pass_store _ _ _ _ _ _ Hp Hq) as E.
      rewrite <- E. eapply IH; [exact H|]. by rewrite E.
Qed.

Lemma summary_store locals w r w' :
  summary np_mean float_str np_save_refuses locals w = (r, w') ->
  (forall q, (forall l, locals = Some l ->
                        q <> Pathlib.str (loc_dicePath l)) ->
             files w' !! q = files w !! q) /\
  (forall q, is_Some (files w !! q) -> is_Some (files w' !! q)).
Proof.
  destruct locals as [l|]; simpl; [|by intros [= <- <-]].
  unfold bind, lift, print, np_save.
  destruct (getitem (loc_filepath l) 0) as [e|f0]; simpl;
    [by intros [= <- <-]|].
  destruct (np_save_refuses _); intros [= <- <-]; simpl; [done|].
  split.
  - intros q Hq. rewrite lookup_insert_ne; [done|].
    intros E. by apply (Hq l).
  - intros q Hq. rewrite lookup_insert_is_Some'. auto.
Qed.

(** A batch deletes no file. *)
Lemma batch_deletes_nothing filepaths a w r w' q :
  validate_from_filepaths nib_load read_mapping _predict replace np_equal
                          dice_numpy np_mean float_str nib_save_refuses
                          np_save_refuses filepaths a w
  = (r, w') ->
  is_Some (files w !! q) -> is_Some (files w' !! q).
Proof.
  unfold validate_from_filepaths, bind.
  destruct (passes a filepaths None w) as [[e|locals] w1] eqn:Hl.
  - intros [= <- <-] Hq. by rewrite (passes_store _ _ _ _ _ _ _ Hl Hq).
  - intros Hs Hq. apply summary_store in Hs as [_ Hs]. apply Hs.
    by rewrite (passes_store _ _ _ _ _ _ _ Hl Hq).
Qed.


(** *** Passes that complete, passes that fail *)

(** What [save_outputs] has saved when it went through: the mean first,
    then volumes to the variance or the entropy target only; all of
    them are in the store afterwards. *)
Lemma save_outputs_ok_head a outputs o w w' :
  save_outputs nib_save_refuses a outputs o w = (inr (), w') ->
  exists o0 rest,
    tuple_get outputs 0 = inr o0 /\
    trace w' = trace w ++ NibSave (Pathlib.str (meanPath o)) o0 :: rest /\
    Forall (fun e => exists v,
              e = NibSave (Pathlib.str (variancePath o)) v \/
              e = NibSave (Pathlib.str (entropyPath o)) v) rest /\
    (returnArrayFromImages a = true -> rest = []) /\
    is_Some (files w' !! Pathlib.str (meanPath o)).
Proof.
  unfold save_outputs, bind, lift, ret.
  destruct (returnArrayFromImages a), (includeVariance a),
    (returnEntropy a); simpl; intros H; save_cases H; simplify_eq;
    eexists _, _; (split; [done|]);
    (split; [repeat match goal with
                    | E : trace _ = _ |- _ => rewrite E; clear E
                    end; rewrite <- ?app_assoc; simpl; reflexivity|]);
    (split; [repeat (apply Forall_cons; split; [eauto|]);
             by apply Forall_nil|]);
    (split; [done|]);
    repeat match goal with
           | E : files _ = _ |- _ => rewrite E; clear E
           end;
    rewrite ?lookup_insert_is_Some'; auto 10.
Qed.

Lemma pass_ok_head a filepath w l w' :
  pass a filepath w = (inr l, w') ->
  exists f0 o0 rest,
    getitem filepath 0 = inr f0 /\
    trace w' =
    trace w ++ NibSave (Pathlib.str (meanPath (derive_paths f0))) o0 :: rest /\
    Forall (fun e => exists v,
              e = NibSave (Pathlib.str (variancePath (derive_paths f0))) v \/
              e = NibSave (Pathlib.str (entropyPath (derive_paths f0))) v)
           rest /\
    (returnArrayFromImages a = true -> rest = []) /\
    is_Some (files w' !! Pathlib.str (meanPath (derive_paths f0))).
Proof.
  intros Hp.
  apply pass_ok_inv in Hp as (outputs & dice & f0 & _ & Hf0 & _ & Hs & _).
  apply save_outputs_ok_head in Hs as (o0 & rest & _ & Ht & Hall & Ha & Hm).
  by exists f0, o0, rest.
Qed.

(** With returnArrayFromImages set, a pass that completes has saved
    the mean and nothing else. *)
Lemma array_form_saves_mean_only a filepath w l w' :
  returnArrayFromImages a = true ->
  pass a filepath w = (inr l, w') ->
  exists f0 o0,
    getitem filepath 0 = inr f0 /\
    trace w' =
    trace w ++ [NibSave (Pathlib.str (meanPath (derive_paths f0))) o0].
Proof.
  intros Ha Hp.
  apply pass_ok_head in Hp as (f0 & o0 & rest & Hf0 & Ht & _ & Hr & _).
  exists f0, o0. split; [done|]. by rewrite Ht, (Hr Ha).
Qed.

(** A pass over an input whose mean target already is a file fails and
    leaves the world as it was. *)
Lemma pass_blocked a filepath w f0 :
  getitem filepath 0 = inr f0 ->
  is_Some (files w !! Pathlib.str (meanPath (derive_paths f0))) ->
  exists e, pass a filepath w = (inl e, w).
Proof.
  intros Hf0 Hm. rewrite pass_unfold.
  destruct (validate1 _ _ _) as [e|[outputs dice]]; [by exists e|].
  rewrite Hf0. cbv zeta. rewrite (is_file_true _ _ Hm). simpl.
  by eexists.
Qed.

(** When a pass fails the batch ends with its error: the later inputs
    are not looked at, nothing is printed and no Dice vector is
    saved. *)
Lemma failing_pass_ends_batch a earlier filepath later w locals w1 e w2 :
  passes a earlier None w = (inr locals, w1) ->
  pass a filepath w1 = (inl e, w2) ->
  validate_from_filepaths nib_load read_mapping _predict replace np_equal
                          dice_numpy np_mean float_str nib_save_refuses
                          np_save_refuses (earlier ++ filepath :: later) a w
  = (inl e, w2) /\
  exists saves, trace w2 = trace w ++ saves /\ Forall is_nib_save saves.
Proof.
  intros He Hp. split.
  - unfold validate_from_filepaths, bind. rewrite passes_app, He. simpl.
    unfold bind. by rewrite Hp.
  - apply passes_saves in He as (s1 & Ht1 & H1).
    apply pass_saves in Hp as (s2 & Ht2 & H2).
    exists (s1 ++ s2). split; [by rewrite Ht2, Ht1, app_assoc|].
    apply Forall_app. split.
    + eapply Forall_impl; [exact H1|].
      intros ev (fp & _ & Hev). by eapply pass_event_is_save.
    + eapply Forall_impl; [exact H2|].
      intros ev Hev. by eapply pass_event_is_save.
Qed.

(** A batch in which one volume path occurs twice does not complete:
    the second occurrence finds the mean target of the first. *)
Lemma repeated_input_fails l1 fp1 l2 fp2 l3 a w f0 :
  getitem fp1 0 = inr f0 -> getitem fp2 0 = inr f0 ->
  exists e w',
    validate_from_filepaths nib_load read_mapping _predict replace np_equal
                            dice_numpy np_mean float_str nib_save_refuses
                            np_save_refuses
                            (l1 ++ fp1 :: l2 ++ fp2 :: l3) a w
    = (inl e, w').
Proof.
  intros H1 H2. unfold validate_from_filepaths, bind.
  rewrite passes_app.
  destruct (passes a l1 None w) as [[e|loc1] w1]; [by eexists _, _|].
  simpl. unfold bind.
  destruct (pass a fp1 w1) as [[e|l] w2] eqn:Hp1; [by eexists _, _|].
  apply pass_ok_head in Hp1 as (f0' & o0 & rest & Hf0 & _ & _ & _ & Hm).
  rewrite H1 in Hf0. injection Hf0 as <-.
  rewrite passes_app.
  destruct (passes a l2 (Some l) w2) as [[e|loc2] w3] eqn:Hl2;
    [by eexists _, _|].
  assert (is_Some (files w3 !! Pathlib.str (meanPath (derive_paths f0))))
    as Hm3 by (by rewrite (passes_store _ _ _ _ _ _ _ Hl2 Hm)).
  destruct (pass_blocked a fp2 w3 f0 H2 Hm3) as [e Hp2].
  simpl. unfold bind. rewrite Hp2. by eexists _, _.
Qed.

(** A batch that has completed cannot be run again on the store it
    left: the second run fails in its first pass, whatever the
    parameters, and writes nothing. *)
Lemma rerun_fails_without_writing fp rest a a2 w w' :
  validate_from_filepaths nib_load read_mapping _predict replace np_equal
                          dice_numpy np_mean float_str nib_save_refuses
                          np_save_refuses (fp :: rest) a w
  = (inr (), w') ->
  exists e,
    validate_from_filepaths nib_load read_mapping _predict replace np_equal
                            dice_numpy np_mean float_str nib_save_refuses
                            np_save_refuses (fp :: rest) a2 w'
    = (inl e, w').
Proof.
  unfold validate_from_filepaths, bind. simpl. unfold bind.
  destruct (pass a fp w) as [[e|l] w1] eqn:Hp; [done|].
  apply pass_ok_head in Hp as (f0 & o0 & r0 & Hf0 & _ & _ & _ & Hm).
  destruct (passes a rest (Some l) w1) as [[e|loc] w2] eqn:Hl; [done|].
  intros Hs. apply summary_store in Hs as [_ Hs].
  assert (is_Some (files w' !! Pathlib.str (meanPath (derive_paths f0))))
    as Hm' by (by apply Hs; rewrite (passes_store _ _ _ _ _ _ _ Hl Hm)).
  destruct (pass_blocked a2 fp w' f0 Hf0 Hm') as [e Hp2].
  rewrite Hp2. by exists e.
Qed.

(** *** Reading back what was saved *)

(** The store after [save_outputs] went through, branch by branch. *)
Lemma save_outputs_ok_store a outputs o w w' :
  save_outputs nib_save_refuses a outputs o w = (inr (), w') ->
  exists o0,
    tuple_get outputs 0 = inr o0 /\
    let fm := <[Pathlib.str (meanPath o) := ImgFile o0]> (files w) in
    (returnArrayFromImages a = true -> files w' = fm) /\
    (returnArrayFromImages a = false -> includeVariance a = false ->
     exists o1, tuple_get outputs 1 = inr o1 /\
                files w' = <[Pathlib.str (entropyPath o) := ImgFile o1]> fm) /\
    (returnArrayFromImages a = false -> includeVariance a = true ->
     returnEntropy a = false ->
     exists o1, tuple_get outputs 1 = inr o1 /\
                files w' = <[Pathlib.str (variancePath o) := ImgFile o1]> fm) /\
    (returnArrayFromImages a = false -> includeVariance a = true ->
     returnEntropy a = true ->
     exists o1 o2,
       tuple_get outputs 1 = inr o1 /\ tuple_get outputs 2 = inr o2 /\
       files w' = <[Pathlib.str (entropyPath o) := ImgFile o2]>
                    (<[Pathlib.str (variancePath o) := ImgFile o1]> fm)).
Proof.
  unfold save_outputs, bind, lift, ret.
  destruct (returnArrayFromImages a), (includeVariance a),
    (returnEntropy a); simpl; intros H; save_cases H; simplify_eq;
    eexists; (split; [done|]); cbv zeta;
    repeat split; intros; try done;
    repeat match goal with
           | E : files _ = _ |- _ => rewrite E; clear E
           end; eauto.
Qed.

(** After a pass that completes, every volume it saved is in the store
    at its target: outputs[0] at the mean target; with images asked
    for, outputs[1] at the variance target when the variance is
    included and at the entropy target otherwise; and outputs[2] at the
    entropy target when variance and entropy are both saved. *)
Lemma pass_store_round_trip a filepath w l w' :
  pass a filepath w = (inr l, w') ->
  exists outputs dice f0 o0,
    validate_from_filepath nib_load read_mapping _predict replace np_equal
                           dice_numpy (files w) filepath a
    = inr (outputs, dice) /\
    getitem filepath 0 = inr f0 /\
    tuple_get outputs 0 = inr o0 /\
    let o := derive_paths f0 in
    files w' !! Pathlib.str (meanPath o) = Some (ImgFile o0) /\
    (returnArrayFromImages a = false ->
     exists o1,
       tuple_get outputs 1 = inr o1 /\
       files w' !! Pathlib.str (if includeVariance a then variancePath o
                                else entropyPath o)
       = Some (ImgFile o1)) /\
    (returnArrayFromImages a = false -> includeVariance a = true ->
     returnEntropy a = true ->
     exists o2,
       tuple_get outputs 2 = inr o2 /\
       files w' !! Pathlib.str (entropyPath o) = Some (ImgFile o2)).
Proof.
  intros Hp.
  apply pass_ok_inv in Hp as (outputs & dice & f0 & Hv & Hf0 & _ & Hs & _).
  apply save_outputs_ok_store in Hs
    as (o0 & Ho0 & Harr & Hent & Hvar & Hboth).
  destruct (out_paths_pairwise f0) as (Hmv & Hme & _ & Hve & _ & _).
  exists outputs, dice, f0, o0. repeat (split; [done|]). cbv zeta.
  destruct (returnArrayFromImages a) eqn:Ea.
  { rewrite (Harr eq_refl), lookup_insert_eq. done. }
  destruct (includeVariance a) eqn:Ei; [destruct (returnEntropy a) eqn:Ee|].
  - destruct (Hboth eq_refl eq_refl eq_refl) as (o1 & o2 & H1 & H2 & ->).
    rewrite !lookup_insert_ne by done. rewrite lookup_insert_eq.
    split; [done|]. split.
    + intros _. exists o1. split; [done|].
      rewrite lookup_insert_ne by (by apply not_eq_sym).
      by rewrite lookup_insert_eq.
    + intros _ _ _. exists o2. by rewrite lookup_insert_eq.
  - destruct (Hvar eq_refl eq_refl eq_refl) as (o1 & H1 & ->).
    rewrite lookup_insert_ne by done. rewrite lookup_insert_eq.
    split; [done|]. split; [|done].
    intros _. exists o1. by rewrite lookup_insert_eq.
  - destruct (Hent eq_refl eq_refl) as (o1 & H1 & ->).
    rewrite lookup_insert_ne by done. rewrite lookup_insert_eq.
    split; [done|]. split; [|done].
    intros _. exists o1. by rewrite lookup_insert_eq.
Qed.

Lemma summary_ok_store l w w' :
  summary np_mean float_str np_save_refuses (Some l) w = (inr (), w') ->
  files w' = <[Pathlib.str (loc_dicePath l) := NpyFile (loc_dice l)]> (files w).
Proof.
  unfold summary, bind, lift, print, np_save.
  destruct (getitem (loc_filepath l) 0) as [e|f0]; [done|]. simpl.
  destruct (np_save_refuses _); [done|]. by intros [= <-].
Qed.

(** After a batch that returns, the file at the dice target of the last
    input holds the Dice vector of the last input, whatever was there
    before. *)
Lemma dice_file_holds_last_vector earlier last a w w' :
  validate_from_filepaths nib_load read_mapping _predict replace np_equal
                          dice_numpy np_mean float_str nib_save_refuses
                          np_save_refuses (earlier ++ [last]) a w
  = (inr (), w') ->
  exists locals w1 outputs dice f0,
    passes a earlier None w = (inr locals, w1) /\
    validate_from_filepath nib_load read_mapping _predict replace np_equal
                           dice_numpy (files w1) last a
    = inr (outputs, dice) /\
    getitem last 0 = inr f0 /\
    files w' !! Pathlib.str (dicePath (derive_paths f0))
    = Some (NpyFile dice).
Proof.
  unfold validate_from_filepaths, bind. rewrite passes_app.
  destruct (passes a earlier None w) as [[e|locals] w1] eqn:He; [done|].
  simpl. unfold bind, ret.
  destruct (pass a last w1) as [[e|l] w2] eqn:Hp; [done|].
  apply pass_ok_inv in Hp as (outputs & dice & f0 & Hv & Hf0 & _ & _ & ->).
  intros Hs. apply summary_ok_store in Hs. simpl in Hs.
  exists locals, w1, outputs, dice, f0. repeat (split; [done|]).
  by rewrite Hs, lookup_insert_eq.
Qed.

(** *** The order of the saves *)

(** The saves of a loop that completes fall into one run per input, in
    the order of the inputs, each run opening with the mean of its
    input and going on with saves to that input's variance or entropy
    target. *)
Lemma passes_segments a filepaths : forall locals w locals' w',
  passes a filepaths locals w = (inr locals', w') ->
  exists segments,
    trace w' = trace w ++ concat segments /\
    Forall2 (fun fp seg =>
               exists f0 o0 rest,
                 getitem fp 0 = inr f0 /\
                 seg = NibSave (Pathlib.str (meanPath (derive_paths f0))) o0
                       :: rest /\
                 Forall (fun e => exists v,
                           e = NibSave (Pathlib.str
                                          (variancePath (derive_paths f0))) v \/
                           e = NibSave (Pathlib.str
                                          (entropyPath (derive_paths f0))) v)
                        rest)
            filepaths segments.
Proof.
  induction filepaths as [|fp rest IH]; intros locals w locals' w'; simpl.
  - intros [= <- <-]. exists []. split; [by rewrite app_nil_r | constructor].
  - unfold bind. destruct (pass a fp w) as [[e|l] w1] eqn:Hp; [done|].
    apply pass_ok_head in Hp as (f0 & o0 & r0 & Hf0 & Ht & Hall & _ & _).
    intros H. apply IH in H as (segs & Hts & Hsegs).
    exists ((NibSave (Pathlib.str (meanPath (derive_paths f0))) o0 :: r0)
            :: segs).
    split.
    + rewrite Hts, Ht. simpl. by rewrite <- app_assoc.
    + constructor; [|done]. by exists f0, o0, r0.
Qed.

(** A batch that returns has saved one mean volume per input, in the
    order of the inputs, each followed by the secondary volumes of that
    input; the two prints and the Dice vector come after all of them. *)
Lemma batch_saves_in_input_order filepaths a w w' :
  validate_from_filepaths nib_load read_mapping _predict replace np_equal
                          dice_numpy np_mean float_str nib_save_refuses
                          np_save_refuses filepaths a w
  = (inr (), w') ->
  exists segments f0 dice,
    trace w' =
    trace w ++ concat segments
    ++ [Print f0; Print ("Dice: " +:+ float_str (np_mean dice));
        NpSave (Pathlib.str (dicePath (derive_paths f0))) dice] /\
    Forall2 (fun fp seg =>
               exists f0 o0 rest,
                 getitem fp 0 = inr f0 /\
                 seg = NibSave (Pathlib.str (meanPath (derive_paths f0))) o0
                       :: rest /\
                 Forall (fun e => exists v,
                           e = NibSave (Pathlib.str
                                          (variancePath (derive_paths f0))) v \/
                           e = NibSave (Pathlib.str
                                          (entropyPath (derive_paths f0))) v)
                        rest)
            filepaths segments.
Proof.
  unfold validate_from_filepaths, bind.
  destruct (passes a filepaths None w) as [[e|locals] w1] eqn:Hl; [done|].
  intros Hs. destruct locals as [l|]; [|done].
  pose proof (passes_locals _ _ _ _ _ _ Hl)
    as [[_ [=]]|(fp & f0 & dice & _ & Hf0 & [= ->])].
  apply summary_ok_inv in Hs as (f0' & Hf0' & Ht). simpl in Hf0', Ht.
  rewrite Hf0 in Hf0'. injection Hf0' as <-.
  apply passes_segments in Hl as (segs & Hts & Hsegs).
  exists segs, f0, dice. split; [|done].
  by rewrite Ht, Hts, <- app_assoc.
Qed.

(** *** Short tuples and the variance *)

(** With the variance included and the entropy asked for, a pass whose
    predictor returned two outputs saves the mean and the variance and
    then raises IndexError at outputs[2]. *)
Lemma both_branch_index_error a filepath w dice f0 o0 o1 :
  returnArrayFromImages a = false ->
  includeVariance a = true -> returnEntropy a = true ->
  validate_from_filepath nib_load read_mapping _predict replace np_equal
                         dice_numpy (files w) filepath a
  = inr ([o0; o1], dice) ->
  getitem filepath 0 = inr f0 ->
  is_file (files w) (meanPath (derive_paths f0))
  || is_file (files w) (variancePath (derive_paths f0))
  || is_file (files w) (entropyPath (derive_paths f0)) = false ->
  nib_save_refuses o0 (Pathlib.str (meanPath (derive_paths f0))) = None ->
  nib_save_refuses o1 (Pathlib.str (variancePath (derive_paths f0))) = None ->
  pass a filepath w =
  (inl IndexError,
   mkWorld
     (<[Pathlib.str (variancePath (derive_paths f0)) := ImgFile o1]>
        (<[Pathlib.str (meanPath (derive_paths f0)) := ImgFile o0]>
           (files w)))
     (trace w ++ [NibSave (Pathlib.str (meanPath (derive_paths f0))) o0;
                  NibSave (Pathlib.str (variancePath (derive_paths f0))) o1])).
Proof.
  intros Harr Hi He Hv Hf0 Ht Hs0 Hs1.
  rewrite pass_unfold, Hv, Hf0. cbv beta iota zeta. rewrite Ht.
  unfold save_outputs, bind, lift.
  change (tuple_get [o0; o1] 0) with (inr o0 : result Volume).
  change (tuple_get [o0; o1] 1) with (inr o1 : result Volume).
  change (tuple_get [o0; o1] 2) with (inl IndexError : result Volume).
  cbv beta iota. unfold nib_save at 1. rewrite Hs0, Harr, Hi, He.
  cbv beta iota. simpl negb. simpl andb. cbv beta iota.
  unfold nib_save. cbv beta iota zeta.
  change (files (mkWorld ?f ?t)) with f.
  rewrite Hs1. cbv beta iota. do 2 f_equal.
  change (trace (mkWorld ?f ?t)) with t. by rewrite <- app_assoc.
Qed.

(** Unless n_samples > 1 and returnVariance, a batch writes no file to
    the variance target that any volume name would give, however it
    ends. *)
Lemma no_variance_unless_included filepaths a w r w' :
  (n_samples a <= 1)%Z \/ returnVariance a = false ->
  validate_from_filepaths nib_load read_mapping _predict replace np_equal
                          dice_numpy np_mean float_str nib_save_refuses
                          np_save_refuses filepaths a w
  = (r, w') ->
  exists new,
    trace w' = trace w ++ new /\
    Forall (fun e => forall p volume,
              event_path e = Some p ->
              p <> Pathlib.str (variancePath (derive_paths volume))) new.
Proof.
  intros Hn. assert (includeVariance a = false) as Hi.
  { unfold includeVariance. destruct Hn as [Hn| ->]; [|apply andb_false_r].
    destruct (Z.ltb_spec 1 (n_samples a)); [lia|done]. }
  unfold validate_from_filepaths, bind.
  destruct (passes a filepaths None w) as [r1 w1] eqn:Hl.
  pose proof (passes_saves _ _ _ _ _ _ Hl) as (new1 & Ht1 & H1).
  assert (Forall (fun e => forall p volume,
              event_path e = Some p ->
              p <> Pathlib.str (variancePath (derive_paths volume))) new1)
    as H1'.
  { eapply Forall_impl; [exact H1|].
    intros e (fp & Hin & f0 & v & Hf0 & He) p volume Hp.
    destruct He as [->|[->|[Hc _]]]; [| |congruence];
      injection Hp as <-; apply (variance_target_apart f0 volume). }
  destruct r1 as [e|locals].
  - intros [= <- <-]. by exists new1.
  - intros Hs. apply summary_trace in Hs as (new2 & Ht2 & H2).
    exists (new1 ++ new2). split; [by rewrite Ht2, Ht1, app_assoc|].
    apply Forall_app. split; [done|].
    eapply Forall_impl; [exact H2|].
    intros e He p volume Hp. destruct (He p Hp) as (l & -> & ->).
    apply passes_locals in Hl
      as [[_ [=]]|(fp & f0 & dice & Hin & Hf0 & [= ->])].
    apply (variance_target_apart f0 volume).
Qed.

End ValidateFacts.

(** ** The claims on the sample collaborators *)

Lemma dice_entries_are_overlaps_witness :
  Sample.validate_from_filepath Sample.store Sample.pair
    (Sample.args 3 false false 1)
  = inr ([[0; 1; 1; 2]], Sample.dice_pair) /\
  exists f1 G mapping y P,
    getitem Sample.pair 1 = inr f1 /\
    Sample.nib_load Sample.store f1 = inr G /\
    Sample.read_mapping Sample.store "mapping.csv" = inr mapping /\
    Sample.replace G mapping = inr y /\
    tuple_get [[0; 1; 1; 2]] 0 = inr P /\
    forall i : nat, (Z.of_nat i < 3)%Z ->
      exists d,
        Sample.dice_numpy (Sample.np_equal P i) (Sample.np_equal y i) = inr d /\
        Sample.dice_pair !! i = Some d.
Proof.
  split; [vm_compute; reflexivity|].
  apply (dice_entries_are_overlaps
           Sample.nib_load Sample.read_mapping Sample._predict Sample.replace
           Sample.np_equal Sample.dice_numpy Sample.store Sample.pair
           (Sample.args 3 false false 1)).
  vm_compute; reflexivity.
Defined.

Lemma dice_vector_length_and_range_witness :
  (forall u v d, Sample.dice_numpy u v = inr d -> in_unit d) /\
  Sample.validate_from_filepath Sample.store Sample.pair2
    (Sample.args 2 true true 1)
  = inr ([[2; 2; 0; 1]; [0; 0; 0; 0]], Sample.dice_pair2) /\
  Z.of_nat (length Sample.dice_pair2) = 2%Z /\
  Forall in_unit Sample.dice_pair2 /\
  exists P y,
    dice_loop Sample.np_equal Sample.dice_numpy P y
              (seq 0 (length Sample.dice_pair2))
              (replicate (length Sample.dice_pair2) (Finite 0))
    = inr Sample.dice_pair2.
Proof.
  split; [exact sample_dice_in_unit|].
  split; [vm_compute; reflexivity|].
  apply (dice_vector_length_and_range
           Sample.nib_load Sample.read_mapping Sample._predict Sample.replace
           Sample.np_equal Sample.dice_numpy Sample.store Sample.pair2
           (Sample.args 2 true true 1) [[2; 2; 0; 1]; [0; 0; 0; 0]]).
  - exact sample_dice_in_unit.
  - vm_compute; reflexivity.
Defined.

Lemma secondary_volume_selection_witness :
  returnArrayFromImages Sample.args3 = false /\
  Sample.iteration Sample.args3 Sample.pair Sample.world
  = (inr Sample.locals_pair, Sample.world_after_pair) /\
  exists outputs dice f0 o0 rest,
    Sample.validate_from_filepath (files Sample.world) Sample.pair
      Sample.args3
    = inr (outputs, dice) /\
    getitem Sample.pair 0 = inr f0 /\
    tuple_get outputs 0 = inr o0 /\
    let o := derive_paths f0 in
    trace Sample.world_after_pair
    = trace Sample.world ++ NibSave (Pathlib.str (meanPath o)) o0 :: rest /\
    ((exists v, NibSave (Pathlib.str (variancePath o)) v
                ∈ NibSave (Pathlib.str (meanPath o)) o0 :: rest) <->
     (1 < n_samples Sample.args3)%Z /\ returnVariance Sample.args3 = true) /\
    (includeVariance Sample.args3 = true ->
     returnEntropy Sample.args3 = true ->
     exists o1 o2,
       tuple_get outputs 1 = inr o1 /\ tuple_get outputs 2 = inr o2 /\
       rest = [NibSave (Pathlib.str (variancePath o)) o1;
               NibSave (Pathlib.str (entropyPath o)) o2]) /\
    (includeVariance Sample.args3 = true ->
     returnEntropy Sample.args3 = false ->
     exists o1,
       tuple_get outputs 1 = inr o1 /\
       rest = [NibSave (Pathlib.str (variancePath o)) o1]) /\
    (includeVariance Sample.args3 = false ->
     exists o1,
       tuple_get outputs 1 = inr o1 /\
       rest = [NibSave (Pathlib.str (entropyPath o)) o1]).
Proof.
  split; [reflexivity|]. split; [vm_compute; reflexivity|].
  apply (secondary_volume_selection
           Sample.nib_load Sample.read_mapping Sample._predict Sample.replace
           Sample.np_equal Sample.dice_numpy Sample.nib_save_refuses
           Sample.args3 Sample.pair Sample.world
           Sample.locals_pair Sample.world_after_pair).
  - reflexivity.
  - vm_compute; reflexivity.
Defined.

Lemma overwrite_guard_witness :
  Sample.validate_from_filepath (files Sample.world_after_pair) Sample.pair
    Sample.args3
  = inr ([[0; 1; 1; 2]; [0; 0; 0; 0]; [0; 0; 0; 0]], Sample.dice_pair) /\
  getitem Sample.pair 0 = inr "vol.nii.gz" /\
  is_file (files Sample.world_after_pair) (meanPath Sample.out_pair)
  || is_file (files Sample.world_after_pair) (variancePath Sample.out_pair)
  || is_file (files Sample.world_after_pair) (entropyPath Sample.out_pair)
  = true /\
  Sample.iteration Sample.args3 Sample.pair Sample.world_after_pair
  = (inl (PyException (already_exists_msg Sample.out_pair)),
     Sample.world_after_pair) /\
  forall earlier later w0 locals,
    loop Sample.nib_load Sample.read_mapping Sample._predict Sample.replace
         Sample.np_equal Sample.dice_numpy Sample.nib_save_refuses
         Sample.args3 earlier None w0
    = (inr locals, Sample.world_after_pair) ->
    Sample.validate_from_filepaths (earlier ++ Sample.pair :: later)
      Sample.args3 w0
    = (inl (PyException (already_exists_msg Sample.out_pair)),
       Sample.world_after_pair).
Proof.
  split; [vm_compute; reflexivity|]. split; [reflexivity|].
  split; [vm_compute; reflexivity|].
  apply (overwrite_guard
           Sample.nib_load Sample.read_mapping Sample._predict Sample.replace
           Sample.np_equal Sample.dice_numpy Sample.np_mean Sample.float_str
           Sample.nib_save_refuses Sample.np_save_refuses
           Sample.args3 Sample.pair Sample.world_after_pair
           [[0; 1; 1; 2]; [0; 0; 0; 0]; [0; 0; 0; 0]] Sample.dice_pair
           "vol.nii.gz").
  - vm_compute; reflexivity.
  - reflexivity.
  - vm_compute; reflexivity.
Defined.

(** A batch that writes the three files of its first input and halts
    at the second, which asks for the same targets. *)
Example partial_batch :
  let r := Sample.validate_from_filepaths
             [Sample.pair; Sample.pair; Sample.pair2]
             (Sample.args 3 true true 3) Sample.world in
  fst r = inl (PyException
                 ("vol.nii_mean..nii..gz or vol.nii_variance..nii..gz or "
                  +:+ "vol.nii_entropy..nii..gz already exists.")) /\
  trace (snd r) = Sample.saved3.
Proof. vm_compute. split; reflexivity. Qed.

Lemma fallthrough_index_error_witness :
  returnArrayFromImages Sample.args_mean_only = false /\
  includeVariance Sample.args_mean_only = false /\
  Sample.validate_from_filepath (files Sample.world) Sample.pair
    Sample.args_mean_only
  = inr ([[0; 1; 1; 2]], Sample.dice_pair) /\
  getitem Sample.pair 0 = inr "vol.nii.gz" /\
  is_file (files Sample.world) (meanPath Sample.out_pair)
  || is_file (files Sample.world) (variancePath Sample.out_pair)
  || is_file (files Sample.world) (entropyPath Sample.out_pair) = false /\
  Sample.nib_save_refuses [0; 1; 1; 2]
    (Pathlib.str (meanPath Sample.out_pair)) = None /\
  Sample.iteration Sample.args_mean_only Sample.pair Sample.world
  = (inl IndexError,
     mkWorld
       (<[Pathlib.str (meanPath Sample.out_pair) := ImgFile [0; 1; 1; 2]]>
          (files Sample.world))
       (trace Sample.world
        ++ [NibSave (Pathlib.str (meanPath Sample.out_pair)) [0; 1; 1; 2]])).
Proof.
  split; [reflexivity|]. split; [reflexivity|].
  split; [vm_compute; reflexivity|]. split; [reflexivity|].
  split; [vm_compute; reflexivity|]. split; [reflexivity|].
  apply (fallthrough_index_error
           Sample.nib_load Sample.read_mapping Sample._predict Sample.replace
           Sample.np_equal Sample.dice_numpy Sample.nib_save_refuses
           Sample.args_mean_only Sample.pair Sample.world Sample.dice_pair
           "vol.nii.gz" [0; 1; 1; 2]).
  - reflexivity.
  - reflexivity.
  - vm_compute; reflexivity.
  - reflexivity.
  - vm_compute; reflexivity.
  - reflexivity.
Defined.

Lemma single_sample_never_writes_variance_witness :
  n_samples Sample.args_single = 1%Z /\
  Sample.validate_from_filepaths [Sample.pair; Sample.pair2]
    Sample.args_single Sample.world
  = (inr (), Sample.world_after_batch) /\
  exists new,
    trace Sample.world_after_batch = trace Sample.world ++ new /\
    Forall (fun e => forall p, event_path e = Some p ->
              (exists fp f0,
                 fp ∈ [Sample.pair; Sample.pair2] /\
                 getitem fp 0 = inr f0 /\
                 let o := derive_paths f0 in
                 p = Pathlib.str (meanPath o) \/
                 p = Pathlib.str (entropyPath o) \/
                 p = Pathlib.str (dicePath o)) /\
              forall volume,
                p <> Pathlib.str (variancePath (derive_paths volume))) new.
Proof.
  split; [reflexivity|]. split; [vm_compute; reflexivity|].
  apply (single_sample_never_writes_variance
           Sample.nib_load Sample.read_mapping Sample._predict Sample.replace
           Sample.np_equal Sample.dice_numpy Sample.np_mean Sample.float_str
           Sample.nib_save_refuses Sample.np_save_refuses
           [Sample.pair; Sample.pair2] Sample.args_single Sample.world
           (inr ()) Sample.world_after_batch).
  - reflexivity.
  - vm_compute; reflexivity.
Defined.

Lemma summary_reports_last_pass_witness :
  Sample.validate_from_filepaths ([Sample.pair] ++ [Sample.pair2])
    Sample.args_single Sample.world
  = (inr (), Sample.world_after_batch) /\
  exists locals w1 w2 outputs dice f0 saves,
    loop Sample.nib_load Sample.read_mapping Sample._predict Sample.replace
         Sample.np_equal Sample.dice_numpy Sample.nib_save_refuses
         Sample.args_single [Sample.pair] None Sample.world
    = (inr locals, w1) /\
    Sample.validate_from_filepath (files w1) Sample.pair2 Sample.args_single
    = inr (outputs, dice) /\
    getitem Sample.pair2 0 = inr f0 /\
    loop Sample.nib_load Sample.read_mapping Sample._predict Sample.replace
         Sample.np_equal Sample.dice_numpy Sample.nib_save_refuses
         Sample.args_single ([Sample.pair] ++ [Sample.pair2]) None
         Sample.world
    = (inr (Some (mkLocals Sample.pair2 dice
                           (dicePath (derive_paths f0)))), w2) /\
    trace w2 = trace Sample.world ++ saves /\
    Forall is_nib_save saves /\
    trace Sample.world_after_batch =
    trace w2 ++ [Print f0;
                 Print ("Dice: " +:+ Sample.float_str (Sample.np_mean dice));
                 NpSave (Pathlib.str (dicePath (derive_paths f0))) dice].
Proof.
  split; [vm_compute; reflexivity|].
  apply (summary_reports_last_pass
           Sample.nib_load Sample.read_mapping Sample._predict Sample.replace
           Sample.np_equal Sample.dice_numpy Sample.np_mean Sample.float_str
           Sample.nib_save_refuses Sample.np_save_refuses
           [Sample.pair] Sample.pair2 Sample.args_single Sample.world
           Sample.world_after_batch).
  vm_compute; reflexivity.
Defined.

(** ** The derived names *)

Lemma name_snoc r (l : list string) s :
  Pathlib.name (Pathlib.mkPath r (l ++ [s])) = s.
Proof. unfold Pathlib.name. simpl. apply last_last. Qed.

Lemma parent_snoc r (l : list string) s :
  Pathlib.parent (Pathlib.mkPath r (l ++ [s])) = Pathlib.mkPath r l.
Proof. unfold Pathlib.parent. simpl. by rewrite removelast_last. Qed.

(** C2: for an input whose name is volume.nii.gz the derived files stay
    in the directory of the input, but their names are
    volume.nii_mean..nii..gz, volume.nii_variance..nii..gz,
    volume.nii_entropy..nii..gz and volume.nii_dice.npy: the stem keeps
    the inner suffix and every suffix brings its own dot. *)
Theorem derived_names_keep_inner_suffix volume :
  Pathlib.name (Pathlib.parse volume) = "volume.nii.gz" ->
  let o := derive_paths volume in
  let dir := Pathlib.parent (Pathlib.parse volume) in
  (Pathlib.name (meanPath o) = "volume.nii_mean..nii..gz" /\
   Pathlib.name (variancePath o) = "volume.nii_variance..nii..gz" /\
   Pathlib.name (entropyPath o) = "volume.nii_entropy..nii..gz" /\
   Pathlib.name (dicePath o) = "volume.nii_dice.npy") /\
  (Pathlib.parent (meanPath o) = dir /\
   Pathlib.parent (variancePath o) = dir /\
   Pathlib.parent (entropyPath o) = dir /\
   Pathlib.parent (dicePath o) = dir).
Proof.
  intros Hn o dir. subst o dir. rewrite derive_paths_shape. simpl.
  rewrite !name_snoc, !parent_snoc.
  unfold Pathlib.stem, Pathlib.suffixes. rewrite Hn.
  split; [by vm_compute|]. done.
Qed.

Lemma derived_names_keep_inner_suffix_witness :
  Pathlib.name (Pathlib.parse "/data/sub-01/volume.nii.gz") = "volume.nii.gz"
  /\ paths_str (derive_paths "/data/sub-01/volume.nii.gz") =
     ["/data/sub-01/volume.nii_mean..nii..gz";
      "/data/sub-01/volume.nii_variance..nii..gz";
      "/data/sub-01/volume.nii_entropy..nii..gz";
      "/data/sub-01/volume.nii_dice.npy"]
  /\ Pathlib.name (meanPath (derive_paths "/data/sub-01/volume.nii.gz"))
     = "volume.nii_mean..nii..gz".
Proof.
  split; [reflexivity|]. split; [reflexivity|].
  apply (derived_names_keep_inner_suffix "/data/sub-01/volume.nii.gz").
  reflexivity.
Defined.

(** The names the specification expects are not the ones derived. *)
Example derived_names_differ_from_expected :
  paths_str (derive_paths "volume.nii.gz") =
  ["volume.nii_mean..nii..gz"; "volume.nii_variance..nii..gz";
   "volume.nii_entropy..nii..gz"; "volume.nii_dice.npy"] /\
  paths_str (derive_paths "volume.nii.gz") <>
  ["volume_mean.nii.gz"; "volume_variance.nii.gz";
   "volume_entropy.nii.gz"; "volume_dice.npy"].
Proof. split; [reflexivity | discriminate]. Qed.

(** ** More runs of the name derivation and of the validator *)

Example derive_paths_nested :
  paths_str (derive_paths "//a//b/./c.nii.gz") =
  ["//a/b/c.nii_mean..nii..gz"; "//a/b/c.nii_variance..nii..gz";
   "//a/b/c.nii_entropy..nii..gz"; "//a/b/c.nii_dice.npy"].
Proof. reflexivity. Qed.

Example derive_paths_one_suffix :
  paths_str (derive_paths "b.nii") =
  ["b_mean..nii"; "b_variance..nii"; "b_entropy..nii"; "b_dice.npy"].
Proof. reflexivity. Qed.

Example derive_paths_no_suffix :
  paths_str (derive_paths "scan") =
  ["scan_mean."; "scan_variance."; "scan_entropy."; "scan_dice.npy"].
Proof. reflexivity. Qed.

Example derive_paths_two_dots :
  paths_str (derive_paths "x..k") =
  ["x._mean....k"; "x._variance....k"; "x._entropy....k"; "x._dice.npy"].
Proof. reflexivity. Qed.

Example derive_paths_hidden :
  paths_str (derive_paths ".a.b") =
  [".a_mean..b"; ".a_variance..b"; ".a_entropy..b"; ".a_dice.npy"].
Proof. reflexivity. Qed.

Example derive_paths_root :
  paths_str (derive_paths "/") =
  ["/_mean."; "/_variance."; "/_entropy."; "/_dice.npy"].
Proof. reflexivity. Qed.

Example derive_paths_empty :
  paths_str (derive_paths "") =
  ["_mean."; "_variance."; "_entropy."; "_dice.npy"].
Proof. reflexivity. Qed.

(** A [str] passes [Path(...)], and then [filepath[0]] is its first
    character. *)
Example validate_str_loads_first_character :
  Sample.validate_from_filepath Sample.store (Str "vol.nii.gz")
    Sample.args_mean_only
  = inl (FileNotFoundError "v").
Proof. vm_compute. reflexivity. Qed.

(** A missing [str] path is reported with its first character. *)
Example validate_str_missing :
  Sample.validate_from_filepath Sample.store (Str "nowhere.nii")
    Sample.args_mean_only
  = inl (FileNotFoundError "could not find file n").
Proof. vm_compute. reflexivity. Qed.

(** The tuple of the docstring, with both files in the store. *)
Example validate_tuple_existing :
  Sample.validate_from_filepath Sample.store
    (Tuple ["vol.nii.gz"; "gt.nii.gz"]) Sample.args_mean_only
  = inl TypeError.
Proof. reflexivity. Qed.

(** The ground truth is loaded without a check of its own: when it is
    missing the failure is the loader's. *)
Example validate_missing_ground_truth :
  Sample.validate_from_filepath Sample.store
    (PathLikeSeq "vol.nii.gz" ["vol.nii.gz"; "absent.nii.gz"])
    Sample.args_mean_only
  = inl (FileNotFoundError "absent.nii.gz").
Proof. vm_compute. reflexivity. Qed.

Example validate_negative_class_count :
  Sample.validate_from_filepath Sample.store Sample.pair
    (Sample.args (-1) false false 1)
  = inl ValueError.
Proof. vm_compute. reflexivity. Qed.

(** ** More on the derived targets, continued *)

Lemma rfind_split c s i :
  PyStr.rfind c s = Some i -> exists r, s = PyStr.prefix i s +:+ String c r.
Proof.
  unfold PyStr.prefix. revert i.
  induction s as [|a s IH]; intros i; simpl; [done|].
  destruct (PyStr.rfind c s) as [j|] eqn:Hr.
  - intros [= <-]. destruct (IH j eq_refl) as [r Hs]. exists r.
    change (String a s = String a (String.substring 0 j s +:+ String c r)).
    by f_equal.
  - destruct (Ascii.eqb_spec a c) as [->|]; [|done].
    intros [= <-]. by exists s.
Qed.

(** A name is its stem followed by nothing or by a dot and more. *)
Lemma name_extends_stem p :
  exists rest,
    Pathlib.name p = Pathlib.stem p +:+ rest /\
    (rest = "" \/ exists r, rest = String PyStr.dot r).
Proof.
  unfold Pathlib.stem.
  assert (Pathlib.name p = Pathlib.name p +:+ "") as Hnil.
  { induction (Pathlib.name p) as [|a n IH]; [done|].
    change (String a n = String a (n +:+ "")). by f_equal. }
  destruct (PyStr.rfind PyStr.dot (Pathlib.name p)) as [i|] eqn:Hr;
    [|exists ""; auto].
  destruct (_ && _); [|exists ""; auto].
  destruct (rfind_split _ _ _ Hr) as [r Hs].
  exists (String PyStr.dot r). split; [done|]. right. by exists r.
Qed.

Lemma basename_of_parsed v :
  Pathlib.basename (Pathlib.str (Pathlib.parse v))
  = Pathlib.name (Pathlib.parse v) \/
  Pathlib.basename (Pathlib.str (Pathlib.parse v)) = ".".
Proof.
  pose proof (root_cases v) as Hr. pose proof (names_no_slash v) as Hn.
  destruct (Pathlib.parse v) as [r l]. simpl in *.
  destruct l as [|x l] using rev_ind.
  - unfold Pathlib.str, Pathlib.name. simpl.
    destruct Hr as [->|[->| ->]]; [by right|by left..].
  - left. rewrite name_snoc. apply basename_str; [done|].
    apply Forall_app in Hn as [_ Hn]. by apply Forall_cons in Hn as [? _].
Qed.

(** No target of an input is the input itself. *)
Lemma input_apart_from_targets v :
  let o := derive_paths v in
  let input := Pathlib.str (Pathlib.parse v) in
  Pathlib.str (meanPath o) <> input /\
  Pathlib.str (variancePath o) <> input /\
  Pathlib.str (entropyPath o) <> input /\
  Pathlib.str (dicePath o) <> input.
Proof.
  intros o input. subst o input.
  destruct (derived_basenames v) as (Hm & Hv & He & Hd).
  destruct (name_extends_stem (Pathlib.parse v)) as (rest & Hn & Hrest).
  assert (forall tag : string,
            PyStr.contains "_" tag = true ->
            (forall r, tag <> String PyStr.dot r) -> tag <> "" ->
            Pathlib.stem (Pathlib.parse v) +:+ tag
            <> Pathlib.basename (Pathlib.str (Pathlib.parse v))) as Hne.
  { intros tag Hu Hdot Hnil E.
    destruct (basename_of_parsed v) as [Hb|Hb]; rewrite Hb in E.
    - rewrite Hn in E. apply String.app_inj in E.
      destruct Hrest as [->|[r ->]]; [done|]. by apply (Hdot r).
    - apply (f_equal (PyStr.contains "_")) in E.
      rewrite contains_app, Hu, orb_true_r in E. done. }
  repeat split; intros H; apply (f_equal Pathlib.basename) in H;
    rewrite ?Hm, ?Hv, ?He, ?Hd in H; revert H; apply Hne;
    try done; rewrite ?contains_app; done.
Qed.

(** For every volume name the four targets lie in the directory of the
    volume, and their names are the stem followed by the tag and, for
    the three volumes, by the suffixes joined with dots, each suffix
    with its own dot. *)
Theorem derived_targets_shape volume :
  let p := Pathlib.parse volume in
  let X := PyStr.join "." (Pathlib.suffixes p) in
  let o := derive_paths volume in
  (Pathlib.name (meanPath o) = Pathlib.stem p +:+ "_mean." +:+ X /\
   Pathlib.name (variancePath o) = Pathlib.stem p +:+ "_variance." +:+ X /\
   Pathlib.name (entropyPath o) = Pathlib.stem p +:+ "_entropy." +:+ X /\
   Pathlib.name (dicePath o) = Pathlib.stem p +:+ "_dice.npy") /\
  (Pathlib.parent (meanPath o) = Pathlib.parent p /\
   Pathlib.parent (variancePath o) = Pathlib.parent p /\
   Pathlib.parent (entropyPath o) = Pathlib.parent p /\
   Pathlib.parent (dicePath o) = Pathlib.parent p).
Proof.
  intros p X o. subst o. rewrite derive_paths_shape. fold p. fold X. simpl.
  by rewrite !name_snoc, !parent_snoc.
Qed.

(** The four targets of one input are four different files. *)
Theorem derived_targets_no_duplicates volume :
  NoDup (paths_str (derive_paths volume)).
Proof.
  destruct (out_paths_pairwise volume) as (H1 & H2 & H3 & H4 & H5 & H6).
  unfold paths_str.
  repeat (apply NoDup_cons; split;
          [rewrite ?not_elem_of_cons; repeat split;
           try done; apply not_elem_of_nil|]).
  apply NoDup_nil_2.
Qed.

(** The variance target of an input is no mean, entropy or dice target
    of any input, the same or another. *)
Theorem variance_target_never_shared a b :
  Pathlib.str (variancePath (derive_paths b))
  ∉ [Pathlib.str (meanPath (derive_paths a));
     Pathlib.str (entropyPath (derive_paths a));
     Pathlib.str (dicePath (derive_paths a))].
Proof.
  destruct (variance_target_apart a b) as (H1 & H2 & H3).
  rewrite !not_elem_of_cons. repeat split; try (by apply not_eq_sym).
  apply not_elem_of_nil.
Qed.

(** The path of the volume is none of its four targets. *)
Theorem input_is_no_target volume :
  Pathlib.str (Pathlib.parse volume) ∉ paths_str (derive_paths volume).
Proof.
  destruct (input_apart_from_targets volume) as (H1 & H2 & H3 & H4).
  unfold paths_str. rewrite !not_elem_of_cons.
  repeat split; try (by apply not_eq_sym). apply not_elem_of_nil.
Qed.

(** ** The further properties on the sample collaborators *)

Lemma sample_dice_total u v : exists d, Sample.dice_numpy u v = inr d.
Proof.
  unfold Sample.dice_numpy.
  destruct (Sample.count u + Sample.count v)%nat; by eexists.
Qed.



Lemma validate_returns_witness :
  as_path Sample.pair = inr (Pathlib.parse "vol.nii.gz") /\
  is_file Sample.store (Pathlib.parse "vol.nii.gz") = true /\
  getitem Sample.pair 0 = inr "vol.nii.gz" /\
  Sample.nib_load Sample.store "vol.nii.gz" = inr [0; 1; 1; 2] /\
  getitem Sample.pair 1 = inr "gt.nii.gz" /\
  Sample.nib_load Sample.store "gt.nii.gz" = inr [0; 10; 1; 1] /\
  Sample._predict [0; 1; 1; 2] tt (32, 32, 32)%Z false false false 1%Z tt 4%Z
  = inr [[0; 1; 1; 2]] /\
  tuple_get [[0; 1; 1; 2]] 0 = inr [0; 1; 1; 2] /\
  Sample.read_mapping Sample.store "mapping.csv" = inr [(10, 1); (20, 2)] /\
  Sample.replace [0; 10; 1; 1] [(10, 1); (20, 2)] = inr [0; 1; 1; 1] /\
  (0 <= n_classes Sample.args_mean_only)%Z /\
  (forall i, exists d,
      Sample.dice_numpy (Sample.np_equal [0; 1; 1; 2] i)
                        (Sample.np_equal [0; 1; 1; 1] i) = inr d) /\
  exists dice,
    Sample.validate_from_filepath Sample.store Sample.pair
      Sample.args_mean_only
    = inr ([[0; 1; 1; 2]], dice).
Proof.
  split; [reflexivity|]. split; [vm_compute; reflexivity|].
  split; [reflexivity|]. split; [vm_compute; reflexivity|].
  split; [reflexivity|]. split; [vm_compute; reflexivity|].
  split; [reflexivity|]. split; [reflexivity|]. split; [reflexivity|].
  split; [reflexivity|]. split; [vm_compute; discriminate|].
  split; [intros i; apply sample_dice_total|].
  apply (validate_returns
           Sample.nib_load Sample.read_mapping Sample._predict Sample.replace
           Sample.np_equal Sample.dice_numpy
           Sample.store Sample.pair Sample.args_mean_only
           (Pathlib.parse "vol.nii.gz") "vol.nii.gz" [0; 1; 1; 2]
           "gt.nii.gz" [0; 10; 1; 1] [[0; 1; 1; 2]] [0; 1; 1; 2]
           [(10, 1); (20, 2)] [0; 1; 1; 1]).
  - reflexivity.
  - vm_compute; reflexivity.
  - reflexivity.
  - vm_compute; reflexivity.
  - reflexivity.
  - vm_compute; reflexivity.
  - reflexivity.
  - reflexivity.
  - reflexivity.
  - reflexivity.
  - vm_compute; discriminate.
  - intros i; apply sample_dice_total.
Defined.

Lemma ground_truth_error_surfaces_witness :
  as_path SampleMore.missing_truth = inr (Pathlib.parse "vol.nii.gz") /\
  is_file Sample.store (Pathlib.parse "vol.nii.gz") = true /\
  getitem SampleMore.missing_truth 0 = inr "vol.nii.gz" /\
  Sample.nib_load Sample.store "vol.nii.gz" = inr [0; 1; 1; 2] /\
  getitem SampleMore.missing_truth 1 = inr "absent.nii.gz" /\
  Sample.nib_load Sample.store "absent.nii.gz"
  = inl (FileNotFoundError "absent.nii.gz") /\
  Sample.validate_from_filepath Sample.store SampleMore.missing_truth
    Sample.args_mean_only
  = inl (FileNotFoundError "absent.nii.gz").
Proof.
  split; [reflexivity|]. split; [vm_compute; reflexivity|].
  split; [reflexivity|]. split; [vm_compute; reflexivity|].
  split; [reflexivity|]. split; [vm_compute; reflexivity|].
  apply (ground_truth_error_surfaces
           Sample.nib_load Sample.read_mapping Sample._predict Sample.replace
           Sample.np_equal Sample.dice_numpy
           Sample.store SampleMore.missing_truth Sample.args_mean_only
           (Pathlib.parse "vol.nii.gz") "vol.nii.gz" [0; 1; 1; 2]
           "absent.nii.gz").
  - reflexivity.
  - vm_compute; reflexivity.
  - reflexivity.
  - vm_compute; reflexivity.
  - reflexivity.
  - vm_compute; reflexivity.
Defined.

Lemma outputs_are_the_predictors_witness :
  Sample.validate_from_filepath Sample.store Sample.pair Sample.args3
  = inr (SampleMore.outputs3, Sample.dice_pair) /\
  exists f0 img,
    getitem Sample.pair 0 = inr f0 /\
    Sample.nib_load Sample.store f0 = inr img /\
    Sample._predict img (predictor Sample.args3) (block_shape Sample.args3)
      (returnVariance Sample.args3) (returnEntropy Sample.args3)
      (returnArrayFromImages Sample.args3) (n_samples Sample.args3)
      (normalizer Sample.args3) (batch_size Sample.args3)
    = inr SampleMore.outputs3 /\
    SampleMore.outputs3 <> [].
Proof.
  split; [vm_compute; reflexivity|].
  apply (outputs_are_the_predictors
           Sample.nib_load Sample.read_mapping Sample._predict Sample.replace
           Sample.np_equal Sample.dice_numpy
           Sample.store Sample.pair Sample.args3 SampleMore.outputs3
           Sample.dice_pair).
  vm_compute; reflexivity.
Defined.

Lemma negative_class_count_fails_witness :
  (n_classes SampleMore.args_negative < 0)%Z /\
  exists e,
    Sample.validate_from_filepath Sample.store Sample.pair
      SampleMore.args_negative
    = inl e.
Proof.
  split; [reflexivity|].
  apply (negative_class_count_fails
           Sample.nib_load Sample.read_mapping Sample._predict Sample.replace
           Sample.np_equal Sample.dice_numpy
           Sample.store Sample.pair SampleMore.args_negative).
  reflexivity.
Defined.

Lemma batch_deletes_nothing_witness :
  Sample.validate_from_filepaths [Sample.pair; Sample.pair2]
    Sample.args_single Sample.world
  = (inr (), Sample.world_after_batch) /\
  is_Some (files Sample.world !! "gt.nii.gz") /\
  is_Some (files Sample.world_after_batch !! "gt.nii.gz").
Proof.
  split; [vm_compute; reflexivity|].
  split; [vm_compute; eexists; reflexivity|].
  apply (batch_deletes_nothing
           Sample.nib_load Sample.read_mapping Sample._predict Sample.replace
           Sample.np_equal Sample.dice_numpy Sample.np_mean Sample.float_str
           Sample.nib_save_refuses Sample.np_save_refuses
           [Sample.pair; Sample.pair2] Sample.args_single Sample.world
           (inr ()) Sample.world_after_batch "gt.nii.gz").
  - vm_compute; reflexivity.
  - vm_compute; eexists; reflexivity.
Defined.


Lemma array_form_saves_mean_only_witness :
  returnArrayFromImages SampleMore.args_arrays = true /\
  iteration Sample.nib_load Sample.read_mapping Sample._predict Sample.replace
           Sample.np_equal Sample.dice_numpy Sample.nib_save_refuses
    SampleMore.args_arrays Sample.pair Sample.world
  = (inr Sample.locals_pair, SampleMore.world_mean_only) /\
  exists f0 o0,
    getitem Sample.pair 0 = inr f0 /\
    trace SampleMore.world_mean_only =
    trace Sample.world
    ++ [NibSave (Pathlib.str (meanPath (derive_paths f0))) o0].
Proof.
  split; [reflexivity|]. split; [vm_compute; reflexivity|].
  apply (array_form_saves_mean_only
           Sample.nib_load Sample.read_mapping Sample._predict Sample.replace
           Sample.np_equal Sample.dice_numpy Sample.nib_save_refuses
           SampleMore.args_arrays Sample.pair Sample.world
           Sample.locals_pair SampleMore.world_mean_only).
  - reflexivity.
  - vm_compute; reflexivity.
Defined.

Lemma failing_pass_ends_batch_witness :
  loop Sample.nib_load Sample.read_mapping Sample._predict Sample.replace
           Sample.np_equal Sample.dice_numpy Sample.nib_save_refuses
    Sample.args_mean_only [] None Sample.world
  = (inr None, Sample.world) /\
  Sample.iteration Sample.args_mean_only Sample.pair Sample.world
  = (inl IndexError, SampleMore.world_mean_only) /\
  Sample.validate_from_filepaths ([] ++ Sample.pair :: [Sample.pair2])
    Sample.args_mean_only Sample.world
  = (inl IndexError, SampleMore.world_mean_only) /\
  exists saves,
    trace SampleMore.world_mean_only = trace Sample.world ++ saves /\
    Forall is_nib_save saves.
Proof.
  split; [reflexivity|]. split; [vm_compute; reflexivity|].
  apply (failing_pass_ends_batch
           Sample.nib_load Sample.read_mapping Sample._predict Sample.replace
           Sample.np_equal Sample.dice_numpy Sample.np_mean Sample.float_str
           Sample.nib_save_refuses Sample.np_save_refuses
           Sample.args_mean_only [] Sample.pair [Sample.pair2] Sample.world
           None Sample.world IndexError SampleMore.world_mean_only).
  - reflexivity.
  - vm_compute; reflexivity.
Defined.

Lemma repeated_input_fails_witness :
  getitem Sample.pair 0 = inr "vol.nii.gz" /\
  exists e w',
    Sample.validate_from_filepaths
      ([Sample.pair2] ++ Sample.pair :: [] ++ Sample.pair :: [])
      Sample.args_single Sample.world
    = (inl e, w').
Proof.
  split; [reflexivity|].
  apply (repeated_input_fails
           Sample.nib_load Sample.read_mapping Sample._predict Sample.replace
           Sample.np_equal Sample.dice_numpy Sample.np_mean Sample.float_str
           Sample.nib_save_refuses Sample.np_save_refuses
           [Sample.pair2] Sample.pair [] Sample.pair [] Sample.args_single
           Sample.world "vol.nii.gz").
  - reflexivity.
  - reflexivity.
Defined.

Lemma rerun_fails_without_writing_witness :
  Sample.validate_from_filepaths (Sample.pair :: [Sample.pair2])
    Sample.args_single Sample.world
  = (inr (), Sample.world_after_batch) /\
  exists e,
    Sample.validate_from_filepaths (Sample.pair :: [Sample.pair2])
      Sample.args3 Sample.world_after_batch
    = (inl e, Sample.world_after_batch).
Proof.
  split; [vm_compute; reflexivity|].
  apply (rerun_fails_without_writing
           Sample.nib_load Sample.read_mapping Sample._predict Sample.replace
           Sample.np_equal Sample.dice_numpy Sample.np_mean Sample.float_str
           Sample.nib_save_refuses Sample.np_save_refuses
           Sample.pair [Sample.pair2] Sample.args_single Sample.args3
           Sample.world Sample.world_after_batch).
  vm_compute; reflexivity.
Defined.

Lemma pass_store_round_trip_witness :
  Sample.iteration Sample.args3 Sample.pair Sample.world
  = (inr Sample.locals_pair, Sample.world_after_pair) /\
  exists outputs dice f0 o0,
    Sample.validate_from_filepath (files Sample.world) Sample.pair
      Sample.args3
    = inr (outputs, dice) /\
    getitem Sample.pair 0 = inr f0 /\
    tuple_get outputs 0 = inr o0 /\
    let o := derive_paths f0 in
    files Sample.world_after_pair !! Pathlib.str (meanPath o)
    = Some (ImgFile o0) /\
    (returnArrayFromImages Sample.args3 = false ->
     exists o1,
       tuple_get outputs 1 = inr o1 /\
       files Sample.world_after_pair
       !! Pathlib.str (if includeVariance Sample.args3 then variancePath o
                       else entropyPath o)
       = Some (ImgFile o1)) /\
    (returnArrayFromImages Sample.args3 = false ->
     includeVariance Sample.args3 = true ->
     returnEntropy Sample.args3 = true ->
     exists o2,
       tuple_get outputs 2 = inr o2 /\
       files Sample.world_after_pair !! Pathlib.str (entropyPath o)
       = Some (ImgFile o2)).
Proof.
  split; [vm_compute; reflexivity|].
  apply (pass_store_round_trip
           Sample.nib_load Sample.read_mapping Sample._predict Sample.replace
           Sample.np_equal Sample.dice_numpy Sample.nib_save_refuses
           Sample.args3 Sample.pair Sample.world Sample.locals_pair
           Sample.world_after_pair).
  vm_compute; reflexivity.
Defined.

Lemma dice_file_holds_last_vector_witness :
  Sample.validate_from_filepaths ([Sample.pair] ++ [Sample.pair2])
    Sample.args_single Sample.world
  = (inr (), Sample.world_after_batch) /\
  exists locals w1 outputs dice f0,
    loop Sample.nib_load Sample.read_mapping Sample._predict Sample.replace
           Sample.np_equal Sample.dice_numpy Sample.nib_save_refuses
      Sample.args_single [Sample.pair] None Sample.world
    = (inr locals, w1) /\
    Sample.validate_from_filepath (files w1) Sample.pair2 Sample.args_single
    = inr (outputs, dice) /\
    getitem Sample.pair2 0 = inr f0 /\
    files Sample.world_after_batch
    !! Pathlib.str (dicePath (derive_paths f0))
    = Some (NpyFile dice).
Proof.
  split; [vm_compute; reflexivity|].
  apply (dice_file_holds_last_vector
           Sample.nib_load Sample.read_mapping Sample._predict Sample.replace
           Sample.np_equal Sample.dice_numpy Sample.np_mean Sample.float_str
           Sample.nib_save_refuses Sample.np_save_refuses
           [Sample.pair] Sample.pair2 Sample.args_single Sample.world
           Sample.world_after_batch).
  vm_compute; reflexivity.
Defined.

Lemma batch_saves_in_input_order_witness :
  Sample.validate_from_filepaths [Sample.pair; Sample.pair2]
    Sample.args_single Sample.world
  = (inr (), Sample.world_after_batch) /\
  exists segments f0 dice,
    trace Sample.world_after_batch =
    trace Sample.world ++ concat segments
    ++ [Print f0;
        Print ("Dice: " +:+ Sample.float_str (Sample.np_mean dice));
        NpSave (Pathlib.str (dicePath (derive_paths f0))) dice] /\
    Forall2 (fun fp seg =>
               exists f0 o0 rest,
                 getitem fp 0 = inr f0 /\
                 seg = NibSave (Pathlib.str (meanPath (derive_paths f0))) o0
                       :: rest /\
                 Forall (fun e => exists v,
                           e = NibSave (Pathlib.str
                                          (variancePath (derive_paths f0))) v \/
                           e = NibSave (Pathlib.str
                                          (entropyPath (derive_paths f0))) v)
                        rest)
            [Sample.pair; Sample.pair2] segments.
Proof.
  split; [vm_compute; reflexivity|].
  apply (batch_saves_in_input_order
           Sample.nib_load Sample.read_mapping Sample._predict Sample.replace
           Sample.np_equal Sample.dice_numpy Sample.np_mean Sample.float_str
           Sample.nib_save_refuses Sample.np_save_refuses
           [Sample.pair; Sample.pair2] Sample.args_single Sample.world
           Sample.world_after_batch).
  vm_compute; reflexivity.
Defined.

Lemma both_branch_index_error_witness :
  returnArrayFromImages Sample.args3 = false /\
  includeVariance Sample.args3 = true /\
  returnEntropy Sample.args3 = true /\
  validate_from_filepath
    Sample.nib_load Sample.read_mapping SampleMore.predict_two
           Sample.replace Sample.np_equal Sample.dice_numpy
    (files Sample.world) Sample.pair Sample.args3
  = inr ([[0; 1; 1; 2]; [0; 0; 0; 0]], Sample.dice_pair) /\
  getitem Sample.pair 0 = inr "vol.nii.gz" /\
  is_file (files Sample.world) (meanPath Sample.out_pair)
  || is_file (files Sample.world) (variancePath Sample.out_pair)
  || is_file (files Sample.world) (entropyPath Sample.out_pair) = false /\
  iteration Sample.nib_load Sample.read_mapping SampleMore.predict_two
           Sample.replace Sample.np_equal Sample.dice_numpy
    Sample.nib_save_refuses Sample.args3 Sample.pair Sample.world
  = (inl IndexError, SampleMore.world_mean_variance).
Proof.
  split; [reflexivity|]. split; [reflexivity|]. split; [reflexivity|].
  split; [vm_compute; reflexivity|]. split; [reflexivity|].
  split; [vm_compute; reflexivity|].
  etrans;
    [apply (both_branch_index_error
              Sample.nib_load Sample.read_mapping SampleMore.predict_two
           Sample.replace Sample.np_equal Sample.dice_numpy
              Sample.nib_save_refuses Sample.args3 Sample.pair Sample.world
              Sample.dice_pair "vol.nii.gz" [0; 1; 1; 2] [0; 0; 0; 0])|].
  - reflexivity.
  - reflexivity.
  - reflexivity.
  - vm_compute; reflexivity.
  - reflexivity.
  - vm_compute; reflexivity.
  - reflexivity.
  - reflexivity.
  - vm_compute; reflexivity.
Defined.

Lemma no_variance_unless_included_witness :
  ((n_samples Sample.args_single <= 1)%Z \/
   returnVariance Sample.args_single = false) /\
  Sample.validate_from_filepaths [Sample.pair; Sample.pair2]
    Sample.args_single Sample.world
  = (inr (), Sample.world_after_batch) /\
  exists new,
    trace Sample.world_after_batch = trace Sample.world ++ new /\
    Forall (fun e => forall p volume,
              event_path e = Some p ->
              p <> Pathlib.str (variancePath (derive_paths volume))) new.
Proof.
  split; [left; vm_compute; discriminate|].
  split; [vm_compute; reflexivity|].
  apply (no_variance_unless_included
           Sample.nib_load Sample.read_mapping Sample._predict Sample.replace
           Sample.np_equal Sample.dice_numpy Sample.np_mean Sample.float_str
           Sample.nib_save_refuses Sample.np_save_refuses
           [Sample.pair; Sample.pair2] Sample.args_single Sample.world
           (inr ()) Sample.world_after_batch).
  - left; vm_compute; discriminate.
  - vm_compute; reflexivity.
Defined.
